(** * Extraction normalizer: grouping of extraction spans into a fund document

    Shallow embedding of [normalize_to_schema] as written in
    [backend/pipeline.py] (the vision pipeline), of its older siblings in
    [backend/docs/docling_langextract/pipeline.py] and [pipeline.py], and of
    the Pydantic schema of [backend/docs/docling_langextract/schema.py];
    with them [normalize_text], the page selection of
    [extract_pdf_pages_as_images] and [infer_doc_type] of
    [backend/server.py].

    Conventions.
    - A Python [str] is a Rocq [string], a sequence of 8-bit characters.  On
      that range the regular-expression class [\D] is the complement of
      [0-9], as is [[^0-9]].
    - The small Python dicts (one investment record, [data["fund"]],
      [data["fees"]], a contact, the attributes of a span) are finite maps
      [gmap string _].  [investment_groups], whose iteration order is
      observable through [.values()], also keeps the list of its keys in
      insertion order.
    - Exceptions are explicit: a computation returns [Ok v] or [Raise e], and
      [try ... except Exception] is [try_except].
    - [float(s)] yields the exact decimal value of the literal, a reduced
      rational; the rounding to binary64 is not modelled. *)

From Stdlib Require Import Ascii String ZArith QArith.
From stdpp Require Import gmap strings list fin_maps.

Local Open Scope string_scope.

#[local] Set Warnings "-clear-no-such-hyp".

(** ** Python values and exceptions *)

Inductive pyval : Type :=
| PNone
| PStr (s : string)
| PInt (n : Z)
| PFloat (q : Q).

Inductive exn : Type :=
| ValueError
| KeyError
| ValidationError.

Inductive result (A : Type) : Type :=
| Ok (a : A)
| Raise (e : exn).

Arguments Ok {A} a.
Arguments Raise {A} e.

#[global] Instance result_ret : MRet result := λ A a, Ok a.
#[global] Instance result_bind : MBind result := λ A B f m,
  match m with
  | Ok a => f a
  | Raise e => Raise e
  end.

(** [try: body except Exception: handler] *)
Definition try_except {A : Type} (body : result A) (handler : exn → result A) : result A :=
  match body with
  | Ok a => Ok a
  | Raise e => handler e
  end.

(** Python truthiness of a variable holding [None] or a [str]: the string
    itself when the value is truthy. *)
Definition truthy (o : option string) : option string :=
  match o with
  | Some s => if decide (s = "") then None else Some s
  | None => None
  end.

(** [x is not None], for [x] the result of [dict.get]. *)
Definition is_not_none (o : option pyval) : bool :=
  match o with
  | None | Some PNone => false
  | Some _ => true
  end.

(** ** Text clean-up and numeric parsing *)

Definition is_digit (c : ascii) : bool :=
  let n := N_of_ascii c in ((48 <=? n)%N && (n <=? 57)%N)%bool.

(** Membership in the class [[0-9.\-]]. *)
Definition is_numeric_char (c : ascii) : bool :=
  (is_digit c || Ascii.eqb c "." || Ascii.eqb c "-")%bool.

Fixpoint str_filter (keep : ascii → bool) (s : string) : string :=
  match s with
  | EmptyString => EmptyString
  | String c r => if keep c then String c (str_filter keep r) else str_filter keep r
  end.

Fixpoint str_forall (p : ascii → bool) (s : string) : bool :=
  match s with
  | EmptyString => true
  | String c r => (p c && str_forall p r)%bool
  end.

(** [re.sub(r"\D", "", txt)] *)
Definition re_sub_non_digit (txt : string) : string := str_filter is_digit txt.

(** [re.sub(r"[^0-9.\-]", "", txt)] *)
Definition re_sub_non_numeric (txt : string) : string := str_filter is_numeric_char txt.

Definition digit_value (c : ascii) : Z := Z.of_N (N_of_ascii c) - 48.

(** Value of a run of decimal digits read after the accumulator [acc]. *)
Fixpoint digits_value (acc : Z) (s : string) : Z :=
  match s with
  | EmptyString => acc
  | String c r => digits_value (10 * acc + digit_value c) r
  end.

(** CPython's default limit on the length of a decimal string given to
    [int()] ([sys.get_int_max_str_digits()]). *)
Definition int_max_str_digits : nat := 4300.

(** [int(s)] on a text over the alphabet [[0-9]] left by [re_sub_non_digit]:
    a non-empty run of digits within the length limit, [ValueError]
    otherwise.  (Signs, underscores and blanks, which [int] also reads, use
    characters outside that alphabet.) *)
Definition py_int (s : string) : result Z :=
  if decide (s = "") then Raise ValueError
  else if negb (str_forall is_digit s) then Raise ValueError
  else if decide (int_max_str_digits < String.length s)%nat then Raise ValueError
  else Ok (digits_value 0 s).

(** Longest prefix of digits and the rest. *)
Fixpoint span_digits (s : string) : string * string :=
  match s with
  | EmptyString => (EmptyString, EmptyString)
  | String c r =>
      if is_digit c then let '(d, rest) := span_digits r in (String c d, rest)
      else (EmptyString, s)
  end.

Definition decimal_value (neg : bool) (int_part frac_part : string) : Q :=
  let m := digits_value 0 (int_part +:+ frac_part) in
  let q := Qred (Qmake m (Z.to_pos (10 ^ Z.of_nat (String.length frac_part)))) in
  if neg then Qopp q else q.

(** [float(s)] on a text over the alphabet [[0-9.\-]] left by
    [re_sub_non_numeric]: an optional minus sign, then digits with at most one
    dot and at least one digit.  Anything else is a [ValueError].  (Signs
    [+], exponents, [inf], [nan], underscores and blanks, which [float] also
    reads, use characters outside that alphabet.) *)
Definition py_float (s : string) : result Q :=
  let '(neg, body) :=
    match s with
    | String "-" r => (true, r)
    | _ => (false, s)
    end in
  let '(int_part, rest) := span_digits body in
  match rest with
  | EmptyString =>
      if decide (int_part = "") then Raise ValueError
      else Ok (decimal_value neg int_part "")
  | String "." frac_part =>
      if negb (str_forall is_digit frac_part) then Raise ValueError
      else if decide (int_part = "" ∧ frac_part = "") then Raise ValueError
      else Ok (decimal_value neg int_part frac_part)
  | _ => Raise ValueError
  end.

(** ** Insertion-ordered dict with string keys

    A Python dict whose [.values()] order is used: the map and the keys in
    the order of their first insertion. *)

Record odict (V : Type) : Type := ODict {
  od_map : gmap string V;
  od_keys : list string
}.

Arguments ODict {V} od_map od_keys.
Arguments od_map {V} o.
Arguments od_keys {V} o.

Definition od_empty {V : Type} : odict V := ODict ∅ [].

(** [k in d] *)
Definition od_contains {V : Type} (k : string) (d : odict V) : bool :=
  match od_map d !! k with
  | Some _ => true
  | None => false
  end.

(** [d[k] = v]: a new key goes last, an existing key keeps its place. *)
Definition od_setitem {V : Type} (k : string) (v : V) (d : odict V) : odict V :=
  ODict (<[k := v]> (od_map d))
        (if od_contains k d then od_keys d else od_keys d ++ [k]).

(** [d[k]], which raises [KeyError] on a missing key. *)
Definition od_getitem {V : Type} (k : string) (d : odict V) : result V :=
  match od_map d !! k with
  | Some v => Ok v
  | None => Raise KeyError
  end.

(** [d.values()] *)
Definition od_values {V : Type} (d : odict V) : list V :=
  omap (λ k, od_map d !! k) (od_keys d).

(** ** Spans *)

(** [langextract.data.Extraction], as far as the normalizer reads it. *)
Record Extraction : Type := mkExtraction {
  extraction_class : string;
  extraction_text : string;
  attributes : option (gmap string string)
}.

(** [getattr(ext, "attributes", {}) or {}] *)
Definition attrs_of (ext : Extraction) : gmap string string :=
  match attributes ext with
  | Some d => d
  | None => ∅
  end.

(** [attrs.get(k)] as a Python value. *)
Definition attrs_get (attrs : gmap string string) (k : string) : pyval :=
  match attrs !! k with
  | Some s => PStr s
  | None => PNone
  end.

(** [attrs[k]] *)
Definition attrs_getitem (attrs : gmap string string) (k : string) : result string :=
  match attrs !! k with
  | Some s => Ok s
  | None => Raise KeyError
  end.

(** The value of the dict [data] about to be handed to the schema. *)
Inductive data_value : Type :=
| VDict (d : gmap string pyval)
| VDictList (l : list (gmap string pyval))
| VStrList (l : list string).

(** ** The Pydantic schema, [schema.py] *)

Module Schema.

Record FeeTerms : Type := mkFeeTerms {
  management_fee : option string;
  carry : option string;
  hurdle_rate : option string;
  catch_up : option string
}.

Record FundEntity : Type := mkFundEntity {
  fund_name : option string;
  vintage_year : option Z;
  gp_name : option string;
  domicile : option string;
  strategy : option string
}.

Record KeyContacts : Type := mkKeyContacts {
  name : option string;
  title : option string;
  email : option string;
  phone : option string
}.

Record Investment : Type := mkInvestment {
  investment_name : option string;
  investment_type : option string;
  industry : option string;
  country : option string;
  currency : option string;
  investment_date : option string;
  investment_cost : option Q;
  fair_value : option Q;
  ownership : option Q;
  number_of_shares : option Q;
  moic : option Q
}.

Record FundDocExtraction : Type := mkFundDocExtraction {
  fund : FundEntity;
  investment : Investment;
  fees : FeeTerms;
  contacts : list KeyContacts;
  source_anchors : option (list string)
}.

(** Validation of one keyword against [Optional[str]], [Optional[int]] and
    [Optional[float]].  A missing keyword takes the default [None].  The
    normalizer passes a [str], an [int], a [float] or [None]; Pydantic's
    conversions from other types are not modelled and count as errors. *)
Definition opt_str (o : option pyval) : result (option string) :=
  match o with
  | None | Some PNone => Ok None
  | Some (PStr s) => Ok (Some s)
  | Some _ => Raise ValidationError
  end.

Definition opt_int (o : option pyval) : result (option Z) :=
  match o with
  | None | Some PNone => Ok None
  | Some (PInt n) => Ok (Some n)
  | Some _ => Raise ValidationError
  end.

Definition opt_float (o : option pyval) : result (option Q) :=
  match o with
  | None | Some PNone => Ok None
  | Some (PFloat q) => Ok (Some q)
  | Some (PInt n) => Ok (Some (inject_Z n))
  | Some _ => Raise ValidationError
  end.

(** [FeeTerms] built from the keywords [d]: the declared fields are read,
    any other key of [d] is ignored (Pydantic's default [extra="ignore"]). *)
Definition FeeTerms_init (d : gmap string pyval) : result FeeTerms :=
  a ← opt_str (d !! "management_fee");
  b ← opt_str (d !! "carry");
  c ← opt_str (d !! "hurdle_rate");
  e ← opt_str (d !! "catch_up");
  Ok (mkFeeTerms a b c e).

Definition FundEntity_init (d : gmap string pyval) : result FundEntity :=
  a ← opt_str (d !! "fund_name");
  b ← opt_int (d !! "vintage_year");
  c ← opt_str (d !! "gp_name");
  e ← opt_str (d !! "domicile");
  f ← opt_str (d !! "strategy");
  Ok (mkFundEntity a b c e f).

Definition KeyContacts_init (d : gmap string pyval) : result KeyContacts :=
  a ← opt_str (d !! "name");
  b ← opt_str (d !! "title");
  c ← opt_str (d !! "email");
  e ← opt_str (d !! "phone");
  Ok (mkKeyContacts a b c e).

Definition Investment_init (d : gmap string pyval) : result Investment :=
  a ← opt_str (d !! "investment_name");
  b ← opt_str (d !! "investment_type");
  c ← opt_str (d !! "industry");
  e ← opt_str (d !! "country");
  f ← opt_str (d !! "currency");
  g ← opt_str (d !! "investment_date");
  h ← opt_float (d !! "investment_cost");
  i ← opt_float (d !! "fair_value");
  j ← opt_float (d !! "ownership");
  k ← opt_float (d !! "number_of_shares");
  l ← opt_float (d !! "moic");
  Ok (mkInvestment a b c e f g h i j k l).

Fixpoint contacts_init (l : list (gmap string pyval)) : result (list KeyContacts) :=
  match l with
  | [] => Ok []
  | d :: rest =>
      c ← KeyContacts_init d;
      cs ← contacts_init rest;
      Ok (c :: cs)
  end.

(** [FundDocExtraction] built from the keywords [data].  Each declared field is looked up among
    the keywords; a field that is not given takes its default factory; a
    keyword that names no field is ignored. *)
Definition FundDocExtraction_init (data : gmap string data_value) : result FundDocExtraction :=
  fu ← match data !! "fund" with
       | None => Ok (mkFundEntity None None None None None)
       | Some (VDict d) => FundEntity_init d
       | Some _ => Raise ValidationError
       end;
  inv ← match data !! "investment" with
        | None => Ok (mkInvestment None None None None None None None None None None None)
        | Some (VDict d) => Investment_init d
        | Some _ => Raise ValidationError
        end;
  fe ← match data !! "fees" with
       | None => Ok (mkFeeTerms None None None None)
       | Some (VDict d) => FeeTerms_init d
       | Some _ => Raise ValidationError
       end;
  cs ← match data !! "contacts" with
       | None => Ok []
       | Some (VDictList l) => contacts_init l
       | Some _ => Raise ValidationError
       end;
  sa ← match data !! "source_anchors" with
       | None => Ok None
       | Some (VStrList l) => Ok (Some l)
       | Some _ => Raise ValidationError
       end;
  Ok (mkFundDocExtraction fu inv fe cs sa).

(** JSON documents, as far as [model_dump_json] produces them. *)
#[warnings="-register-all"] Inductive json : Type :=
| JNull
| JStr (s : string)
| JInt (n : Z)
| JNum (q : Q)
| JList (l : list json)
| JObj (members : list (string * json)).

Definition j_str (o : option string) : json :=
  match o with Some s => JStr s | None => JNull end.

Definition j_int (o : option Z) : json :=
  match o with Some n => JInt n | None => JNull end.

Definition j_num (o : option Q) : json :=
  match o with Some q => JNum q | None => JNull end.

Definition dump_fees (m : FeeTerms) : json :=
  JObj [("management_fee", j_str (management_fee m)); ("carry", j_str (carry m));
        ("hurdle_rate", j_str (hurdle_rate m)); ("catch_up", j_str (catch_up m))].

Definition dump_fund (m : FundEntity) : json :=
  JObj [("fund_name", j_str (fund_name m)); ("vintage_year", j_int (vintage_year m));
        ("gp_name", j_str (gp_name m)); ("domicile", j_str (domicile m));
        ("strategy", j_str (strategy m))].

Definition dump_contact (m : KeyContacts) : json :=
  JObj [("name", j_str (name m)); ("title", j_str (title m));
        ("email", j_str (email m)); ("phone", j_str (phone m))].

Definition dump_investment (m : Investment) : json :=
  JObj [("investment_name", j_str (investment_name m));
        ("investment_type", j_str (investment_type m));
        ("industry", j_str (industry m)); ("country", j_str (country m));
        ("currency", j_str (currency m));
        ("investment_date", j_str (investment_date m));
        ("investment_cost", j_num (investment_cost m));
        ("fair_value", j_num (fair_value m)); ("ownership", j_num (ownership m));
        ("number_of_shares", j_num (number_of_shares m)); ("moic", j_num (moic m))].

(** [model.model_dump_json()]: the declared fields, in declaration order. *)
Definition model_dump_json (m : FundDocExtraction) : list (string * json) :=
  [("fund", dump_fund (fund m));
   ("investment", dump_investment (investment m));
   ("fees", dump_fees (fees m));
   ("contacts", JList (map dump_contact (contacts m)));
   ("source_anchors",
    match source_anchors m with
    | Some l => JList (map JStr l)
    | None => JNull
    end)].

End Schema.

(** ** State of the single pass

    The dict [data] (without its ["investments"] entry, which is assigned
    after the loop), [investment_groups] and the two rolling variables. *)

Record state : Type := mkState {
  data_fund : gmap string pyval;
  data_fees : gmap string pyval;
  data_contacts : list (gmap string pyval);
  data_source_anchors : list string;
  investment_groups : odict (gmap string pyval);
  current_investment_name : option string;
  current_investment_type : option string
}.

Definition initial_state : state :=
  mkState ∅ ∅ [] [] od_empty None None.

(** [data["fund"][k] = v] *)
Definition set_fund (st : state) (k : string) (v : pyval) : state :=
  mkState (<[k := v]> (data_fund st)) (data_fees st) (data_contacts st)
          (data_source_anchors st) (investment_groups st)
          (current_investment_name st) (current_investment_type st).

(** [data["fees"][k] = v] *)
Definition set_fees (st : state) (k : string) (v : pyval) : state :=
  mkState (data_fund st) (<[k := v]> (data_fees st)) (data_contacts st)
          (data_source_anchors st) (investment_groups st)
          (current_investment_name st) (current_investment_type st).

(** [data["contacts"].append(c)] *)
Definition append_contact (st : state) (c : gmap string pyval) : state :=
  mkState (data_fund st) (data_fees st) (data_contacts st ++ [c])
          (data_source_anchors st) (investment_groups st)
          (current_investment_name st) (current_investment_type st).

(** [data["source_anchors"].append(a)] *)
Definition append_anchor (st : state) (a : string) : state :=
  mkState (data_fund st) (data_fees st) (data_contacts st)
          (data_source_anchors st ++ [a]) (investment_groups st)
          (current_investment_name st) (current_investment_type st).

Definition set_groups (st : state) (g : odict (gmap string pyval)) : state :=
  mkState (data_fund st) (data_fees st) (data_contacts st)
          (data_source_anchors st) g
          (current_investment_name st) (current_investment_type st).

Definition set_current_name (st : state) (n : option string) : state :=
  mkState (data_fund st) (data_fees st) (data_contacts st)
          (data_source_anchors st) (investment_groups st)
          n (current_investment_type st).

Definition set_current_type (st : state) (t : option string) : state :=
  mkState (data_fund st) (data_fees st) (data_contacts st)
          (data_source_anchors st) (investment_groups st)
          (current_investment_name st) t.

(** [f"{a}_{b}"] *)
Definition unique_key_of (a b : string) : string := a +:+ "_" +:+ b.

(** [if unique_key not in investment_groups: investment_groups[unique_key] = r] *)
Definition ensure_record (k : string) (r : gmap string pyval)
    (g : odict (gmap string pyval)) : odict (gmap string pyval) :=
  if od_contains k g then g else od_setitem k r g.

(** [investment_groups[k][field] = v]: the record is fetched, which raises
    [KeyError] when [k] is missing, and updated in place. *)
Definition set_record_field (k field : string) (v : pyval)
    (g : odict (gmap string pyval)) : result (odict (gmap string pyval)) :=
  r ← od_getitem k g;
  Ok (od_setitem k (<[field := v]> r) g).

(** The body shared by the branches of the text-valued investment fields
    ([industry], [country], [currency], [investment_date],
    [currency_exposure]). *)
Definition attach_text (st : state) (field txt : string) : result state :=
  match truthy (current_investment_name st), truthy (current_investment_type st) with
  | Some n, Some t =>
      let unique_key := unique_key_of n t in
      let g := ensure_record unique_key
                 {[ "investment_name" := PStr n; "investment_type" := PStr t ]}
                 (investment_groups st) in
      g' ← set_record_field unique_key field (PStr txt) g;
      Ok (set_groups st g')
  | _, _ => Ok st
  end.

(** The body shared by the branches of the numeric investment fields
    ([investment_cost], [fair_value], [interest_fee_receivable], [total],
    [ownership], [number_of_shares], [moic]): the assignment of the parsed
    number is tried, and on any exception [None] is assigned instead. *)
Definition attach_float (st : state) (field txt : string) : result state :=
  match truthy (current_investment_name st), truthy (current_investment_type st) with
  | Some n, Some t =>
      let unique_key := unique_key_of n t in
      let g := ensure_record unique_key
                 {[ "investment_name" := PStr n; "investment_type" := PStr t ]}
                 (investment_groups st) in
      g' ← try_except
             (x ← py_float (re_sub_non_numeric txt);
              set_record_field unique_key field (PFloat x) g)
             (λ _, set_record_field unique_key field PNone g);
      Ok (set_groups st g')
  | _, _ => Ok st
  end.

(** The [vintage_year] branch. *)
Definition set_vintage_year (st : state) (txt : string) : result state :=
  try_except
    (n ← py_int (re_sub_non_digit txt);
     Ok (set_fund st "vintage_year" (PInt n)))
    (λ _, Ok (set_fund st "vintage_year" PNone)).

(** The [investment_name] branch. *)
Definition on_investment_name (st : state) (txt : string) : result state :=
  let st1 := set_current_name st (Some txt) in
  let unique_key :=
    match truthy (current_investment_type st1) with
    | Some t => unique_key_of txt t
    | None => txt
    end in
  Ok (set_groups st1
        (ensure_record unique_key {[ "investment_name" := PStr txt ]}
           (investment_groups st1))).

(** The [investment_type] branch. *)
Definition on_investment_type (st : state) (txt : string) : result state :=
  let st1 := set_current_type st (Some txt) in
  match truthy (current_investment_name st1) with
  | Some n =>
      let unique_key := unique_key_of n txt in
      let g := ensure_record unique_key {[ "investment_name" := PStr n ]}
                 (investment_groups st1) in
      g' ← set_record_field unique_key "investment_type" (PStr txt) g;
      Ok (set_groups st1 g')
  | None => Ok st1
  end.

(** The [contact] branch. *)
Definition on_contact (st : state) (txt : string) (attrs : gmap string string) : result state :=
  Ok (append_contact st
        {[ "name" := PStr txt;
           "title" := attrs_get attrs "title";
           "email" := attrs_get attrs "email";
           "phone" := attrs_get attrs "phone" ]}).

(** The statement after the chain: anchors are collected from every span. *)
Definition collect_anchor (st : state) (attrs : gmap string string) : result state :=
  match attrs !! "anchor" with
  | Some _ =>
      a ← attrs_getitem attrs "anchor";
      Ok (append_anchor st a)
  | None => Ok st
  end.

(** The loop over the spans, for a given loop body. *)
Fixpoint run_loop (body : state → Extraction → result state)
    (st : state) (extractions : list Extraction) : result state :=
  match extractions with
  | [] => Ok st
  | ext :: rest =>
      st' ← body st ext;
      run_loop body st' rest
  end.

(** The dict [data] once ["investments"] has been assigned. *)
Record Data : Type := mkData {
  fund : gmap string pyval;
  investments : list (gmap string pyval);
  fees : gmap string pyval;
  contacts : list (gmap string pyval);
  source_anchors : list string
}.

Definition data_kwargs (d : Data) : gmap string data_value :=
  {[ "fund" := VDict (fund d);
     "investments" := VDictList (investments d);
     "fees" := VDict (fees d);
     "contacts" := VDictList (contacts d);
     "source_anchors" := VStrList (source_anchors d) ]}.

(** ** [backend/pipeline.py] *)

Module Vision.

(** The [if]/[elif] chain on the class of the span. *)
Definition dispatch (st : state) (cls txt : string) (attrs : gmap string string) : result state :=
  if decide (cls = "fund_name") then Ok (set_fund st "fund_name" (PStr txt))
  else if decide (cls = "fund_reporting_period") then Ok (set_fund st "fund_reporting_period" (PStr txt))
  else if decide (cls = "vintage_year") then set_vintage_year st txt
  else if decide (cls = "domicile") then Ok (set_fund st "domicile" (PStr txt))
  else if decide (cls = "strategy") then Ok (set_fund st "strategy" (PStr txt))
  else if decide (cls = "gp_name") then Ok (set_fund st "gp_name" (PStr txt))
  else if decide (cls = "management_fee") then Ok (set_fees st "management_fee" (PStr txt))
  else if decide (cls = "carry") then Ok (set_fees st "carry" (PStr txt))
  else if decide (cls = "hurdle_rate") then Ok (set_fees st "hurdle_rate" (PStr txt))
  else if decide (cls = "catch_up") then Ok (set_fees st "catch_up" (PStr txt))
  else if decide (cls = "investment_name") then on_investment_name st txt
  else if decide (cls = "investment_type") then on_investment_type st txt
  else if decide (cls = "industry") then attach_text st "industry" txt
  else if decide (cls = "country") then attach_text st "country" txt
  else if decide (cls = "currency") then attach_text st "currency" txt
  else if decide (cls = "investment_date") then attach_text st "investment_date" txt
  else if decide (cls = "investment_cost") then attach_float st "investment_cost" txt
  else if decide (cls = "fair_value") then attach_float st "fair_value" txt
  else if decide (cls = "interest_fee_receivable") then attach_float st "interest_fee_receivable" txt
  else if decide (cls = "total") then attach_float st "total" txt
  else if decide (cls = "currency_exposure") then attach_text st "currency_exposure" txt
  else if decide (cls = "ownership") then attach_float st "ownership" txt
  else if decide (cls = "number_of_shares") then attach_float st "number_of_shares" txt
  else if decide (cls = "moic") then attach_float st "moic" txt
  else if decide (cls = "contact") then on_contact st txt attrs
  else Ok st.

(** One iteration of [for ext in extractions]. *)
Definition step (st : state) (ext : Extraction) : result state :=
  let cls := extraction_class ext in
  let txt := extraction_text ext in
  let attrs := attrs_of ext in
  st' ← dispatch st cls txt attrs;
  collect_anchor st' attrs.

Definition run : state → list Extraction → result state := run_loop step.

(** The condition under which a grouped record is kept. *)
Definition has_financial_data (inv : gmap string pyval) : bool :=
  is_not_none (inv !! "investment_cost")
  || is_not_none (inv !! "fair_value")
  || is_not_none (inv !! "ownership").

(** The loop over [investment_groups.values()] after the pass. *)
Fixpoint keep_investments (l : list (gmap string pyval)) : list (gmap string pyval) :=
  match l with
  | [] => []
  | inv :: rest =>
      if has_financial_data inv
      then <["currency" := PStr "USD"]> inv :: keep_investments rest
      else keep_investments rest
  end.

(** [normalize_to_schema] up to the assignment of [data["investments"]]. *)
Definition normalize_data (extractions : list Extraction) : result Data :=
  st ← run initial_state extractions;
  Ok (mkData (data_fund st)
             (keep_investments (od_values (investment_groups st)))
             (data_fees st) (data_contacts st) (data_source_anchors st)).

(** [normalize_to_schema]: the model built from [data].  The file written
    next to it holds [Schema.model_dump_json] of that model. *)
Definition normalize_to_schema (extractions : list Extraction) : result Schema.FundDocExtraction :=
  data ← normalize_data extractions;
  Schema.FundDocExtraction_init (data_kwargs data).

End Vision.

(** ** [backend/docs/docling_langextract/pipeline.py] *)

Module Docling.

(** [needle in hay], on strings. *)
Fixpoint str_in (needle hay : string) : bool :=
  if String.prefix needle hay then true
  else match hay with
       | EmptyString => false
       | String _ r => str_in needle r
       end.

(** [company_industry_mapping], in the order of its items. *)
Definition company_industry_mapping : list (string * string) :=
  [ ("Global Packaging Solutions, Inc.", "Containers & Packaging");
    ("Global Packaging Solutions", "Containers & Packaging");
    ("Global Packaging", "Containers & Packaging");
    ("Solutions, Inc.", "Containers & Packaging");
    ("Innovate Medical Research Center LLC", "Health Care Providers & Services");
    ("Innovate Medical Research", "Health Care Providers & Services");
    ("Medical Research Center LLC", "Health Care Providers & Services") ].

(** [company_industry_mapping[txt]] when [txt in company_industry_mapping]. *)
Fixpoint exact_match (txt : string) (m : list (string * string)) : option string :=
  match m with
  | [] => None
  | (company, industry) :: rest =>
      if decide (txt = company) then Some industry else exact_match txt rest
  end.

(** The loop over the items that stops at the first partial match. *)
Fixpoint partial_match (txt : string) (m : list (string * string)) : option string :=
  match m with
  | [] => None
  | (company_pattern, industry) :: rest =>
      if str_in txt company_pattern || str_in company_pattern txt then Some industry
      else partial_match txt rest
  end.

(** The span appended for one span of the input, if any. *)
Definition industry_fix (ext : Extraction) : option Extraction :=
  let cls := extraction_class ext in
  let txt := extraction_text ext in
  if decide (cls = "investment_name") then
    if decide (txt = "") then None
    else
      let industry_name :=
        match exact_match txt company_industry_mapping with
        | Some i => Some i
        | None => partial_match txt company_industry_mapping
        end in
      match truthy industry_name with
      | Some i => Some (mkExtraction "industry" i (Some ∅))
      | None => None
      end
  else None.

(** [fix_known_extraction_issues].  The source appends to the list it is
    iterating over, so the loop also visits the appended spans; these have
    class [industry] and the body does nothing on them. *)
Definition fix_known_extraction_issues (extractions : list Extraction) : list Extraction :=
  extractions ++ omap industry_fix extractions.

Definition dispatch (st : state) (cls txt : string) (attrs : gmap string string) : result state :=
  if decide (cls = "fund_name") then Ok (set_fund st "fund_name" (PStr txt))
  else if decide (cls = "vintage_year") then set_vintage_year st txt
  else if decide (cls = "domicile") then Ok (set_fund st "domicile" (PStr txt))
  else if decide (cls = "strategy") then Ok (set_fund st "strategy" (PStr txt))
  else if decide (cls = "gp_name") then Ok (set_fund st "gp_name" (PStr txt))
  else if decide (cls = "management_fee") then Ok (set_fees st "management_fee" (PStr txt))
  else if decide (cls = "carry") then Ok (set_fees st "carry" (PStr txt))
  else if decide (cls = "hurdle_rate") then Ok (set_fees st "hurdle_rate" (PStr txt))
  else if decide (cls = "catch_up") then Ok (set_fees st "catch_up" (PStr txt))
  else if decide (cls = "investment_name") then on_investment_name st txt
  else if decide (cls = "investment_type") then on_investment_type st txt
  else if decide (cls = "industry") then attach_text st "industry" txt
  else if decide (cls = "country") then attach_text st "country" txt
  else if decide (cls = "currency") then attach_text st "currency" txt
  else if decide (cls = "investment_date") then attach_text st "investment_date" txt
  else if decide (cls = "investment_cost") then attach_float st "investment_cost" txt
  else if decide (cls = "fair_value") then attach_float st "fair_value" txt
  else if decide (cls = "ownership") then attach_float st "ownership" txt
  else if decide (cls = "number_of_shares") then attach_float st "number_of_shares" txt
  else if decide (cls = "moic") then attach_float st "moic" txt
  else if decide (cls = "contact") then on_contact st txt attrs
  else Ok st.

Definition step (st : state) (ext : Extraction) : result state :=
  let cls := extraction_class ext in
  let txt := extraction_text ext in
  let attrs := attrs_of ext in
  st' ← dispatch st cls txt attrs;
  collect_anchor st' attrs.

Definition run : state → list Extraction → result state := run_loop step.

(** [normalize_to_schema] up to the assignment of [data["investments"]],
    here [list(investment_groups.values())]. *)
Definition normalize_data (extractions : list Extraction) : result Data :=
  let extractions := fix_known_extraction_issues extractions in
  st ← run initial_state extractions;
  Ok (mkData (data_fund st)
             (od_values (investment_groups st))
             (data_fees st) (data_contacts st) (data_source_anchors st)).

Definition normalize_to_schema (extractions : list Extraction) : result Schema.FundDocExtraction :=
  data ← normalize_data extractions;
  Schema.FundDocExtraction_init (data_kwargs data).

End Docling.

(** ** Sample inputs *)

(** A span without attributes, and one carrying an anchor. *)
Definition span (cls txt : string) : Extraction := mkExtraction cls txt None.

Definition span_at (cls txt anchor : string) : Extraction :=
  mkExtraction cls txt (Some {[ "anchor" := anchor ]}).

Definition spans_A_equity : list Extraction :=
  [ span "investment_name" "A"; span "investment_type" "Equity";
    span "investment_cost" "$1,000,000"; span "fair_value" "$1,200,000" ].

(** The record the vision pipeline returns for [spans_A_equity]. *)
Definition record_A_equity : gmap string pyval :=
  {[ "investment_name" := PStr "A"; "investment_type" := PStr "Equity";
     "investment_cost" := PFloat (1000000 # 1);
     "fair_value" := PFloat (1200000 # 1);
     "currency" := PStr "USD" ]}.

Definition spans_name_type_only : list Extraction :=
  [ span "investment_name" "A"; span "investment_type" "Equity" ].

Definition spans_currency_eur : list Extraction :=
  [ span "investment_name" "A"; span "investment_type" "Equity";
    span "currency" "EUR"; span "investment_cost" "5" ].

Definition spans_same_anchor : list Extraction :=
  [ span_at "fund_name" "F" "p3"; span_at "carry" "20%" "p3" ].

Definition spans_type_first : list Extraction :=
  [ span "investment_type" "Equity"; span "investment_name" "A";
    span "investment_cost" "5" ].

(** ** Vocabulary of the statements *)

Definition fund_classes : list string :=
  [ "fund_name"; "vintage_year"; "domicile"; "strategy"; "gp_name";
    "fund_reporting_period" ].

Definition fee_classes : list string :=
  [ "management_fee"; "carry"; "hurdle_rate"; "catch_up" ].

Definition numeric_investment_fields : list string :=
  [ "investment_cost"; "fair_value"; "ownership"; "number_of_shares"; "moic";
    "interest_fee_receivable"; "total" ].

Definition investment_scoped_fields : list string :=
  [ "industry"; "country"; "currency"; "investment_date"; "investment_cost";
    "fair_value"; "ownership"; "number_of_shares"; "moic";
    "interest_fee_receivable"; "total"; "currency_exposure" ].

(** What the [vintage_year] branch stores for a text. *)
Definition vintage_value (txt : string) : pyval :=
  match py_int (re_sub_non_digit txt) with
  | Ok n => PInt n
  | Raise _ => PNone
  end.

(** What a numeric investment branch stores for a text. *)
Definition float_value (txt : string) : pyval :=
  match py_float (re_sub_non_numeric txt) with
  | Ok x => PFloat x
  | Raise _ => PNone
  end.

(** The value derived from a span of a fund-level class. *)
Definition fund_value (cls txt : string) : pyval :=
  if decide (cls = "vintage_year") then vintage_value txt else PStr txt.

(** The last span of a class in a sequence. *)
Fixpoint last_of_class (cls : string) (spans : list Extraction) : option Extraction :=
  match spans with
  | [] => None
  | ext :: rest =>
      match last_of_class cls rest with
      | Some e => Some e
      | None => if decide (extraction_class ext = cls) then Some ext else None
      end
  end.

(** The anchors carried by a sequence of spans, one entry per carrying span. *)
Definition anchor_of (ext : Extraction) : list string :=
  match attrs_of ext !! "anchor" with
  | Some a => [a]
  | None => []
  end.

Definition anchors_of (spans : list Extraction) : list string :=
  concat (map anchor_of spans).

(** The field [f] of the record grouped under the key [k]. *)
Definition field_of (g : odict (gmap string pyval)) (k f : string) : option pyval :=
  match od_map g !! k with
  | Some r => r !! f
  | None => None
  end.

(** The groups after [ensure_record k r] and the assignment of [v] to the
    field [f] of the record under [k]. *)
Definition updated_groups (k : string) (r : gmap string pyval) (f : string) (v : pyval)
    (g : odict (gmap string pyval)) : odict (gmap string pyval) :=
  od_setitem k (<[f := v]> (default r (od_map g !! k))) (ensure_record k r g).

(** The rolling pair (name, type) after a span. *)
Definition cursor_step (c : option string * option string) (ext : Extraction)
    : option string * option string :=
  if decide (extraction_class ext = "investment_name") then (Some (extraction_text ext), c.2)
  else if decide (extraction_class ext = "investment_type") then (c.1, Some (extraction_text ext))
  else c.

(** The key a span of an investment-scoped field is attached to, under the
    rolling pair [c]: the pair must be fully known. *)
Definition attached_key (c : option string * option string) : option string :=
  match truthy c.1, truthy c.2 with
  | Some n, Some t => Some (unique_key_of n t)
  | _, _ => None
  end.

(** The text of the last span of class [cls] attached to the key [k], in a
    sequence read from the rolling pair [c]. *)
Fixpoint last_attached (cls k : string) (c : option string * option string)
    (spans : list Extraction) : option string :=
  match spans with
  | [] => None
  | ext :: rest =>
      match last_attached cls k (cursor_step c ext) rest with
      | Some txt => Some txt
      | None =>
          if decide (extraction_class ext = cls ∧ attached_key c = Some k)
          then Some (extraction_text ext)
          else None
      end
  end.

(** What an investment-scoped branch stores for a text. *)
Definition field_value (cls txt : string) : pyval :=
  if decide (cls ∈ numeric_investment_fields) then float_value txt else PStr txt.

(** The state after the class chain of [backend/pipeline.py], by kind of
    class ([Vision.dispatch_closed_form] relates it to [Vision.dispatch]). *)
Definition dispatch_closed (st : state) (cls txt : string) (attrs : gmap string string) : state :=
  if decide (cls ∈ fund_classes) then set_fund st cls (fund_value cls txt)
  else if decide (cls ∈ fee_classes) then set_fees st cls (PStr txt)
  else if decide (cls = "investment_name") then
    set_groups (set_current_name st (Some txt))
      (ensure_record
         (match truthy (current_investment_type st) with
          | Some t => unique_key_of txt t
          | None => txt
          end)
         {[ "investment_name" := PStr txt ]} (investment_groups st))
  else if decide (cls = "investment_type") then
    match truthy (current_investment_name st) with
    | Some n =>
        set_groups (set_current_type st (Some txt))
          (updated_groups (unique_key_of n txt) {[ "investment_name" := PStr n ]}
             "investment_type" (PStr txt) (investment_groups st))
    | None => set_current_type st (Some txt)
    end
  else if decide (cls ∈ investment_scoped_fields) then
    match truthy (current_investment_name st), truthy (current_investment_type st) with
    | Some n, Some t =>
        set_groups st
          (updated_groups (unique_key_of n t)
             {[ "investment_name" := PStr n; "investment_type" := PStr t ]}
             cls (field_value cls txt) (investment_groups st))
    | _, _ => st
    end
  else if decide (cls = "contact") then
    append_contact st
      {[ "name" := PStr txt;
         "title" := attrs_get attrs "title";
         "email" := attrs_get attrs "email";
         "phone" := attrs_get attrs "phone" ]}
  else st.

(** The state with the anchor of a span collected. *)
Definition with_anchor (st : state) (ext : Extraction) : state :=
  mkState (data_fund st) (data_fees st) (data_contacts st)
          (data_source_anchors st ++ anchor_of ext) (investment_groups st)
          (current_investment_name st) (current_investment_type st).

(** One iteration and the whole loop of [backend/pipeline.py] as functions
    on states ([Vision.run_closed_form]). *)
Definition step_closed (st : state) (ext : Extraction) : state :=
  with_anchor
    (dispatch_closed st (extraction_class ext) (extraction_text ext) (attrs_of ext))
    ext.

Definition run_closed (st : state) (spans : list Extraction) : state :=
  foldl step_closed st spans.

(** The rolling pair of a state. *)
Definition cursor (st : state) : option string * option string :=
  (current_investment_name st, current_investment_type st).

(** The grouping key computed by the [investment_name] branch for a text. *)
Definition name_key (st : state) (txt : string) : string :=
  match truthy (current_investment_type st) with
  | Some t => unique_key_of txt t
  | None => txt
  end.

(** Shapes of the values the pass stores, as the schema expects them. *)
Definition fund_typed (d : gmap string pyval) : Prop :=
  ∀ k v, d !! k = Some v →
    if decide (k = "vintage_year") then v = PNone ∨ ∃ n, v = PInt n
    else ∃ s, v = PStr s.

Definition fees_typed (d : gmap string pyval) : Prop :=
  ∀ k v, d !! k = Some v → ∃ s, v = PStr s.

Definition contact_typed (c : gmap string pyval) : Prop :=
  ∀ k v, c !! k = Some v → v = PNone ∨ ∃ s, v = PStr s.

(** ** Vocabulary of the further properties *)

(** The classes some branch of the chain of [backend/pipeline.py] handles. *)
Definition handled_classes : list string :=
  fund_classes ++ fee_classes ++ ["investment_name"; "investment_type"]
  ++ investment_scoped_fields ++ ["contact"].

(** The dict appended by the [contact] branch for a span. *)
Definition contact_of (ext : Extraction) : gmap string pyval :=
  {[ "name" := PStr (extraction_text ext);
     "title" := attrs_get (attrs_of ext) "title";
     "email" := attrs_get (attrs_of ext) "email";
     "phone" := attrs_get (attrs_of ext) "phone" ]}.

(** The contacts of a sequence: one dict per [contact] span, in order. *)
Definition contacts_of (spans : list Extraction) : list (gmap string pyval) :=
  contact_of <$> filter (λ ext, extraction_class ext = "contact") spans.

(** Two states that differ at most by the collected anchors. *)
Definition same_but_anchors (st st' : state) : Prop :=
  data_fund st = data_fund st'
  ∧ data_fees st = data_fees st'
  ∧ data_contacts st = data_contacts st'
  ∧ investment_groups st = investment_groups st'
  ∧ cursor st = cursor st'.

(** The key of the group an iteration may create or update, if any. *)
Definition touched_key (st : state) (ext : Extraction) : option string :=
  if decide (extraction_class ext = "investment_name")
  then Some (name_key st (extraction_text ext))
  else if decide (extraction_class ext = "investment_type")
  then match truthy (current_investment_name st) with
       | Some n => Some (unique_key_of n (extraction_text ext))
       | None => None
       end
  else if decide (extraction_class ext ∈ investment_scoped_fields)
  then attached_key (cursor st)
  else None.

(** An ordered dict as Python keeps it: every key once, and exactly the keys
    of the map. *)
Definition od_wf {V : Type} (d : odict V) : Prop :=
  NoDup (od_keys d) ∧ ∀ k, k ∈ od_keys d ↔ is_Some (od_map d !! k).

(** The text of the last span of a class. *)
Definition text_of_last (cls : string) (spans : list Extraction) : option string :=
  extraction_text <$> last_of_class cls spans.

(** The year parsed from the last [vintage_year] span. *)
Definition year_of_last (spans : list Extraction) : option Z :=
  match last_of_class "vintage_year" spans with
  | Some e =>
      match py_int (re_sub_non_digit (extraction_text e)) with
      | Ok n => Some n
      | Raise _ => None
      end
  | None => None
  end.

(** The contact model of a [contact] span. *)
Definition contact_model (ext : Extraction) : Schema.KeyContacts :=
  Schema.mkKeyContacts (Some (extraction_text ext))
    (attrs_of ext !! "title") (attrs_of ext !! "email") (attrs_of ext !! "phone").

(** The model that [normalize_to_schema] of [backend/pipeline.py] returns
    ([model_returned_in_closed_form]). *)
Definition model_of (spans : list Extraction) : Schema.FundDocExtraction :=
  Schema.mkFundDocExtraction
    (Schema.mkFundEntity
       (text_of_last "fund_name" spans) (year_of_last spans)
       (text_of_last "gp_name" spans) (text_of_last "domicile" spans)
       (text_of_last "strategy" spans))
    (Schema.mkInvestment None None None None None None None None None None None)
    (Schema.mkFeeTerms
       (text_of_last "management_fee" spans) (text_of_last "carry" spans)
       (text_of_last "hurdle_rate" spans) (text_of_last "catch_up" spans))
    (contact_model <$> filter (λ ext, extraction_class ext = "contact") spans)
    (Some (anchors_of spans)).

(** The classes that only the chain of [backend/pipeline.py] handles. *)
Definition vision_only_classes : list string :=
  [ "fund_reporting_period"; "interest_fee_receivable"; "total"; "currency_exposure" ].

(** A span as the chain of the docling variant treats it: a class it has no
    branch for falls through the chain, like an unknown class. *)
Definition docling_view (ext : Extraction) : Extraction :=
  if decide (extraction_class ext ∈ vision_only_classes)
  then mkExtraction "" (extraction_text ext) (attributes ext)
  else ext.

(** The rolling pair after a sequence of spans. *)
Definition cursor_after (c : option string * option string) (spans : list Extraction)
    : option string * option string :=
  foldl cursor_step c spans.

(** ** [normalize_text], of [docs/docling_langextract/pipeline.py] and [pipeline.py]

    The three substitutions are written as the scanners the regular
    expressions amount to, on strings of 8-bit characters.  [re.sub] replaces
    the leftmost non-overlapping matches, so a character consumed by a match
    cannot start the next one. *)

Definition newline : ascii := "010"%char.

(** Membership in [[ \t]]. *)
Definition is_blank (c : ascii) : bool :=
  (Ascii.eqb c " " || Ascii.eqb c "009")%bool.

(** Membership in [\w]: an alphanumeric character or the underscore.  Below
    256 these are the digits, the ASCII letters, [_], and the Latin-1
    letters and numerals 170, 178-179, 181, 185-186, 188-190, 192-214,
    216-246 and 248-255. *)
Definition is_word (c : ascii) : bool :=
  let n := N_of_ascii c in
  let between (a b : N) := ((a <=? n)%N && (n <=? b)%N)%bool in
  (between 48 57 || between 65 90 || between 95 95 || between 97 122
   || between 170 170 || between 178 179 || between 181 181 || between 185 186
   || between 188 190 || between 192 214 || between 216 246
   || between 248 255)%N%bool.

(** [re.sub(r"(\w)-\n(\w)", r"\1\2", text)]: a match takes four characters
    and leaves the two word characters; the scan resumes after the second. *)
Fixpoint dehyphenate (s : string) : string :=
  match s with
  | EmptyString => EmptyString
  | String a t =>
      match t with
      | String h (String n (String b r)) =>
          if (is_word a && Ascii.eqb h "-" && Ascii.eqb n newline && is_word b)%bool
          then String a (String b (dehyphenate r))
          else String a (dehyphenate t)
      | _ => String a (dehyphenate t)
      end
  end.

(** Whether a text starts with a possibly empty run of blanks followed by a
    newline. *)
Fixpoint blanks_then_newline (s : string) : bool :=
  match s with
  | EmptyString => false
  | String c r =>
      if Ascii.eqb c newline then true
      else if is_blank c then blanks_then_newline r
      else false
  end.

(** [re.sub(r"[ \t]+\n", "\n", text)]: a blank is dropped exactly when the
    run of blanks it belongs to ends at a newline; the newline stays. *)
Fixpoint strip_blanks (s : string) : string :=
  match s with
  | EmptyString => EmptyString
  | String c r =>
      if (is_blank c && blanks_then_newline r)%bool then strip_blanks r
      else String c (strip_blanks r)
  end.

(** [re.sub(r"\n{3,}", "\n\n", text)]: of a run of newlines the first two are
    kept; [seen] counts the newlines kept since the last other character. *)
Fixpoint collapse_newlines (seen : nat) (s : string) : string :=
  match s with
  | EmptyString => EmptyString
  | String c r =>
      if Ascii.eqb c newline then
        if (seen <? 2)%nat then String c (collapse_newlines (S seen) r)
        else collapse_newlines seen r
      else String c (collapse_newlines 0 r)
  end.

Definition normalize_text (text : string) : string :=
  let text := dehyphenate text in
  let text := strip_blanks text in
  let text := collapse_newlines 0 text in
  text.

(** A blank directly before a newline, and three newlines in a row, somewhere
    in a text. *)
Definition has_blank_before_newline (s : string) : Prop :=
  ∃ p c q, is_blank c = true ∧ s = p +:+ String c (String newline q).

Definition has_three_newlines (s : string) : Prop :=
  ∃ p q, s = p +:+ String newline (String newline (String newline q)).

Definition starts_with_newline (s : string) : bool :=
  match s with
  | String c _ => Ascii.eqb c newline
  | EmptyString => false
  end.

Fixpoint leading_newlines (s : string) : nat :=
  match s with
  | String c r => if Ascii.eqb c newline then S (leading_newlines r) else 0%nat
  | EmptyString => 0%nat
  end.

(** ** [pipeline.py], the single-investment normalizer *)

Module Legacy.

(** The dict [data] during the loop. *)
Record state : Type := mkState {
  data_fund : gmap string pyval;
  data_investment : gmap string pyval;
  data_fees : gmap string pyval;
  data_contacts : list (gmap string pyval);
  data_source_anchors : list string
}.

Definition initial_state : state := mkState ∅ ∅ ∅ [] [].

Definition set_fund (st : state) (k : string) (v : pyval) : state :=
  mkState (<[k := v]> (data_fund st)) (data_investment st) (data_fees st)
          (data_contacts st) (data_source_anchors st).

Definition set_investment (st : state) (k : string) (v : pyval) : state :=
  mkState (data_fund st) (<[k := v]> (data_investment st)) (data_fees st)
          (data_contacts st) (data_source_anchors st).

Definition set_fees (st : state) (k : string) (v : pyval) : state :=
  mkState (data_fund st) (data_investment st) (<[k := v]> (data_fees st))
          (data_contacts st) (data_source_anchors st).

Definition append_contact (st : state) (c : gmap string pyval) : state :=
  mkState (data_fund st) (data_investment st) (data_fees st)
          (data_contacts st ++ [c]) (data_source_anchors st).

Definition append_anchor (st : state) (a : string) : state :=
  mkState (data_fund st) (data_investment st) (data_fees st)
          (data_contacts st) (data_source_anchors st ++ [a]).

(** The [vintage_year] branch. *)
Definition set_vintage_year (st : state) (txt : string) : result state :=
  try_except
    (n ← py_int (re_sub_non_digit txt);
     Ok (set_fund st "vintage_year" (PInt n)))
    (λ _, Ok (set_fund st "vintage_year" PNone)).

(** The body shared by the numeric investment branches. *)
Definition set_investment_float (st : state) (field txt : string) : result state :=
  try_except
    (x ← py_float (re_sub_non_numeric txt);
     Ok (set_investment st field (PFloat x)))
    (λ _, Ok (set_investment st field PNone)).

Definition dispatch (st : state) (cls txt : string) (attrs : gmap string string) : result state :=
  if decide (cls = "fund_name") then Ok (set_fund st "fund_name" (PStr txt))
  else if decide (cls = "vintage_year") then set_vintage_year st txt
  else if decide (cls = "domicile") then Ok (set_fund st "domicile" (PStr txt))
  else if decide (cls = "strategy") then Ok (set_fund st "strategy" (PStr txt))
  else if decide (cls = "gp_name") then Ok (set_fund st "gp_name" (PStr txt))
  else if decide (cls = "management_fee") then Ok (set_fees st "management_fee" (PStr txt))
  else if decide (cls = "carry") then Ok (set_fees st "carry" (PStr txt))
  else if decide (cls = "hurdle_rate") then Ok (set_fees st "hurdle_rate" (PStr txt))
  else if decide (cls = "catch_up") then Ok (set_fees st "catch_up" (PStr txt))
  else if decide (cls = "investment_name") then Ok (set_investment st "investment_name" (PStr txt))
  else if decide (cls = "investment_type") then Ok (set_investment st "investment_type" (PStr txt))
  else if decide (cls = "industry") then Ok (set_investment st "industry" (PStr txt))
  else if decide (cls = "country") then Ok (set_investment st "country" (PStr txt))
  else if decide (cls = "currency") then Ok (set_investment st "currency" (PStr txt))
  else if decide (cls = "investment_date") then Ok (set_investment st "investment_date" (PStr txt))
  else if decide (cls = "investment_cost") then set_investment_float st "investment_cost" txt
  else if decide (cls = "fair_value") then set_investment_float st "fair_value" txt
  else if decide (cls = "ownership") then set_investment_float st "ownership" txt
  else if decide (cls = "number_of_shares") then set_investment_float st "number_of_shares" txt
  else if decide (cls = "moic") then set_investment_float st "moic" txt
  else if decide (cls = "contact") then
    Ok (append_contact st
          {[ "name" := PStr txt;
             "title" := attrs_get attrs "title";
             "email" := attrs_get attrs "email";
             "phone" := attrs_get attrs "phone" ]})
  else Ok st.

Definition collect_anchor (st : state) (attrs : gmap string string) : result state :=
  match attrs !! "anchor" with
  | Some _ =>
      a ← attrs_getitem attrs "anchor";
      Ok (append_anchor st a)
  | None => Ok st
  end.

Definition step (st : state) (ext : Extraction) : result state :=
  let cls := extraction_class ext in
  let txt := extraction_text ext in
  let attrs := attrs_of ext in
  st' ← dispatch st cls txt attrs;
  collect_anchor st' attrs.

Fixpoint run (st : state) (extractions : list Extraction) : result state :=
  match extractions with
  | [] => Ok st
  | ext :: rest =>
      st' ← step st ext;
      run st' rest
  end.

(** [data["source_anchors"] or None] *)
Definition anchors_or_none (l : list string) : option (list string) :=
  match l with
  | [] => None
  | _ => Some l
  end.

(** [normalize_to_schema]: the sub-models are built one by one from the
    dicts and handed to [FundDocExtraction]. *)
Definition normalize_to_schema (extractions : list Extraction) : result Schema.FundDocExtraction :=
  st ← run initial_state extractions;
  fu ← Schema.FundEntity_init (data_fund st);
  inv ← Schema.Investment_init (data_investment st);
  fe ← Schema.FeeTerms_init (data_fees st);
  cs ← Schema.contacts_init (data_contacts st);
  Ok (Schema.mkFundDocExtraction fu inv fe cs (anchors_or_none (data_source_anchors st))).

End Legacy.






(** ** [backend/server.py]: the document type of an upload *)

(** [str.lower] on one 8-bit character: the ASCII capitals and the Latin-1
    capitals 192-214 and 216-222 move up by 32, the rest stays. *)
Definition lower_char (c : ascii) : ascii :=
  let n := N_of_ascii c in
  if (((65 <=? n) && (n <=? 90)) || ((192 <=? n) && (n <=? 214))
      || ((216 <=? n) && (n <=? 222)))%N%bool
  then ascii_of_N (n + 32)
  else c.

(** [s.lower()] *)
Fixpoint lower (s : string) : string :=
  match s with
  | EmptyString => EmptyString
  | String c r => String (lower_char c) (lower r)
  end.

(** [any(keyword in name for keyword in keywords)] *)
Definition any_keyword_in (keywords : list string) (name : string) : bool :=
  existsb (λ keyword, Docling.str_in keyword name) keywords.

Definition infer_doc_type (filename : string) : string :=
  let name := lower filename in
  if any_keyword_in ["fund"; "soi"; "financial"] name then "fund_financials"
  else if any_keyword_in ["investor"; "report"] name then "investor_report"
  else "generic".

(** ** [backend/pipeline.py]: the pages handed to the vision model *)

(** The [page_type] of the page with index [page_num]. *)
Definition page_type (page_num : Z) : string :=
  if decide (page_num = 0%Z) then "fund_info" else "investments".

(** The entries appended for one range [(start_page, end_page)] of a
    document of [doc_len] pages: the 1-indexed page and its type.  The
    rendered image of each entry comes from the PDF library and is left
    out, as is what that library does with a negative page index. *)
Definition pages_of_range (doc_len : Z) (r : Z * Z) : list (Z * string) :=
  (λ page_num, ((page_num + 1)%Z, page_type page_num))
    <$> filter (λ page_num, (page_num < doc_len)%Z) (seqZ r.1 (r.2 + 1 - r.1)).

(** The entries of [extract_pdf_pages_as_images], for the page ranges given
    (by default the first page and the pages 6 to 7). *)
Definition extract_pdf_pages (doc_len : Z) (page_ranges : option (list (Z * Z)))
    : list (Z * string) :=
  let page_ranges :=
    match page_ranges with
    | None => [(0, 0); (6, 7)]%Z
    | Some l => l
    end in
  mjoin (pages_of_range doc_len <$> page_ranges).

(** * Properties *)

(** ** Numeric parsing on the texts of the specification *)

Example py_float_money : py_float (re_sub_non_numeric "$1,000,000") = Ok (1000000 # 1)%Q.
Proof. vm_compute. reflexivity. Qed.

Example py_float_pct : py_float (re_sub_non_numeric "12.5%") = Ok (25 # 2)%Q.
Proof. vm_compute. reflexivity. Qed.

Example py_float_na : py_float (re_sub_non_numeric "N/A") = Raise ValueError.
Proof. vm_compute. reflexivity. Qed.

(** ** The ordered dict *)

Lemma od_contains_true {V : Type} (k : string) (g : odict V) :
  od_contains k g = true ↔ is_Some (od_map g !! k).
Proof.
  unfold od_contains. destruct (od_map g !! k); split; intros H;
    first [done | eauto | by destruct H].
Qed.

Lemma od_values_lookup {V : Type} (g : odict V) (v : V) :
  v ∈ od_values g → ∃ k, od_map g !! k = Some v.
Proof.
  unfold od_values. intros H. apply list_elem_of_omap in H as (k & _ & Hk). eauto.
Qed.

Lemma od_map_ensure (k : string) (r : gmap string pyval) (g : odict (gmap string pyval)) :
  od_map (ensure_record k r g) =
    match od_map g !! k with
    | Some _ => od_map g
    | None => <[k := r]> (od_map g)
    end.
Proof.
  unfold ensure_record, od_contains. by destruct (od_map g !! k).
Qed.

Lemma lookup_ensure_same (k : string) (r : gmap string pyval) (g : odict (gmap string pyval)) :
  od_map (ensure_record k r g) !! k = Some (default r (od_map g !! k)).
Proof.
  rewrite od_map_ensure. destruct (od_map g !! k) eqn:E; simpl.
  - done.
  - by rewrite lookup_insert_eq.
Qed.

Lemma set_record_field_ensure (k : string) (r : gmap string pyval) (f : string) (v : pyval)
    (g : odict (gmap string pyval)) :
  set_record_field k f v (ensure_record k r g) = Ok (updated_groups k r f v g).
Proof.
  unfold set_record_field, od_getitem, updated_groups.
  by rewrite lookup_ensure_same.
Qed.

Lemma od_map_updated (k : string) (r : gmap string pyval) (f : string) (v : pyval)
    (g : odict (gmap string pyval)) :
  od_map (updated_groups k r f v g) =
    <[k := <[f := v]> (default r (od_map g !! k))]> (od_map g).
Proof.
  unfold updated_groups, od_setitem. simpl. rewrite od_map_ensure.
  destruct (od_map g !! k); simpl; [done|]. by rewrite insert_insert_eq.
Qed.

(** ** The branches in closed form *)

Lemma attach_text_eq (st : state) (f txt : string) :
  attach_text st f txt =
    Ok (match truthy (current_investment_name st), truthy (current_investment_type st) with
        | Some n, Some t =>
            set_groups st
              (updated_groups (unique_key_of n t)
                 {[ "investment_name" := PStr n; "investment_type" := PStr t ]}
                 f (PStr txt) (investment_groups st))
        | _, _ => st
        end).
Proof.
  unfold attach_text.
  destruct (truthy (current_investment_name st)); [|done].
  destruct (truthy (current_investment_type st)); [|done].
  by rewrite set_record_field_ensure.
Qed.

Lemma attach_float_eq (st : state) (f txt : string) :
  attach_float st f txt =
    Ok (match truthy (current_investment_name st), truthy (current_investment_type st) with
        | Some n, Some t =>
            set_groups st
              (updated_groups (unique_key_of n t)
                 {[ "investment_name" := PStr n; "investment_type" := PStr t ]}
                 f (float_value txt) (investment_groups st))
        | _, _ => st
        end).
Proof.
  unfold attach_float, float_value.
  destruct (truthy (current_investment_name st)); [|done].
  destruct (truthy (current_investment_type st)); [|done].
  destruct (py_float (re_sub_non_numeric txt)); simpl;
    by rewrite set_record_field_ensure.
Qed.

Lemma set_vintage_year_eq (st : state) (txt : string) :
  set_vintage_year st txt = Ok (set_fund st "vintage_year" (vintage_value txt)).
Proof.
  unfold set_vintage_year, vintage_value.
  by destruct (py_int (re_sub_non_digit txt)).
Qed.

Lemma on_investment_type_eq (st : state) (txt : string) :
  on_investment_type st txt =
    Ok (match truthy (current_investment_name st) with
        | Some n =>
            set_groups (set_current_type st (Some txt))
              (updated_groups (unique_key_of n txt) {[ "investment_name" := PStr n ]}
                 "investment_type" (PStr txt) (investment_groups st))
        | None => set_current_type st (Some txt)
        end).
Proof.
  unfold on_investment_type. simpl.
  destruct (truthy (current_investment_name st)); [|done].
  by rewrite set_record_field_ensure.
Qed.

Lemma collect_anchor_eq (st : state) (ext : Extraction) :
  collect_anchor st (attrs_of ext) =
    Ok (with_anchor st ext).
Proof.
  unfold collect_anchor, with_anchor, anchor_of, attrs_getitem.
  destruct (attrs_of ext !! "anchor"); simpl.
  - done.
  - rewrite app_nil_r. by destruct st.
Qed.

(** ** The class chain in closed form *)

(** Contradictions between facts on the class of a span: memberships in the
    class lists and equalities with class names. *)
Ltac closed_class_absurd :=
  match goal with
  | H : ?x ≠ ?x |- _ => by destruct H
  | H : _ = _ |- _ => discriminate H
  | H : _ ∈ _ |- _ => apply (bool_decide_pack _) in H; vm_compute in H; by destruct H
  | H : ¬ (_ ∈ _) |- _ => apply H; apply (bool_decide_unpack _); vm_compute; exact I
  | H : _ ≠ _ |- _ => apply H; reflexivity
  end.

Ltac split_class_membership :=
  match goal with
  | H : ?x ∈ _ :: _ |- _ =>
      lazymatch x with
      | String _ _ => fail
      | EmptyString => fail
      | _ => idtac
      end;
      repeat (apply elem_of_cons in H; destruct H as [H|H];
              [first [subst x | rewrite H in *; clear H]|]);
      try (by apply elem_of_nil in H)
  end.

Ltac class_absurd :=
  exfalso;
  unfold fund_classes, fee_classes, investment_scoped_fields,
    numeric_investment_fields in *;
  repeat match goal with
         | H : extraction_class _ = _ |- _ => rewrite H in *; clear H
         end;
  try split_class_membership;
  closed_class_absurd.

Ltac class_cases :=
  repeat case_decide; subst; try done; try class_absurd.

Lemma dispatch_closed_form (st : state) (cls txt : string) (attrs : gmap string string) :
  Vision.dispatch st cls txt attrs = Ok (dispatch_closed st cls txt attrs).
Proof.
  unfold Vision.dispatch.
  repeat (case_decide; [subst|]);
    rewrite ?attach_text_eq, ?attach_float_eq, ?set_vintage_year_eq,
      ?on_investment_type_eq;
    unfold on_investment_name, on_contact;
    f_equal; unfold dispatch_closed, fund_value, field_value; class_cases.
Qed.

Lemma step_closed_form (st : state) (ext : Extraction) :
  Vision.step st ext = Ok (step_closed st ext).
Proof.
  unfold Vision.step. rewrite dispatch_closed_form. simpl.
  apply collect_anchor_eq.
Qed.

Lemma run_closed_form (spans : list Extraction) (st : state) :
  Vision.run st spans = Ok (run_closed st spans).
Proof.
  revert st. induction spans as [|ext rest IH]; intros st; simpl.
  - done.
  - unfold Vision.run in *. simpl. rewrite step_closed_form. simpl. apply IH.
Qed.

Lemma run_closed_app (st : state) (l1 l2 : list Extraction) :
  run_closed st (l1 ++ l2) = run_closed (run_closed st l1) l2.
Proof. apply foldl_app. Qed.

(** ** What one iteration does to each part of the state *)

Ltac step_cases :=
  unfold step_closed, dispatch_closed, with_anchor;
  repeat case_decide; repeat case_match; simpl; try done.

Lemma step_anchors (st : state) (ext : Extraction) :
  data_source_anchors (step_closed st ext) = (data_source_anchors st ++ anchor_of ext)%list.
Proof. step_cases. Qed.

Lemma step_cursor (st : state) (ext : Extraction) :
  cursor (step_closed st ext) = cursor_step (cursor st) ext.
Proof.
  unfold cursor, cursor_step. step_cases; class_absurd.
Qed.

Lemma step_fund (st : state) (ext : Extraction) :
  data_fund (step_closed st ext) =
    if decide (extraction_class ext ∈ fund_classes)
    then <[extraction_class ext := fund_value (extraction_class ext) (extraction_text ext)]>
           (data_fund st)
    else data_fund st.
Proof. step_cases. Qed.

Lemma step_fees (st : state) (ext : Extraction) :
  data_fees (step_closed st ext) =
    if decide (extraction_class ext ∈ fee_classes)
    then <[extraction_class ext := PStr (extraction_text ext)]> (data_fees st)
    else data_fees st.
Proof.
  step_cases; class_absurd.
Qed.

Lemma step_contacts (st : state) (ext : Extraction) :
  data_contacts (step_closed st ext) = data_contacts st
  ∨ ∃ c, contact_typed c ∧ data_contacts (step_closed st ext) = (data_contacts st ++ [c])%list.
Proof.
  step_cases; try (by left).
  right. eexists. split; [|done].
  intros k v. unfold attrs_get.
  rewrite !lookup_insert, lookup_singleton.
  repeat case_decide; intros Hv; simplify_eq; repeat case_match; eauto.
Qed.

(** ** Records of the groups *)

Lemma field_of_ensure (k' : string) (r : gmap string pyval) (g : odict (gmap string pyval))
    (k f : string) :
  r !! f = None → field_of (ensure_record k' r g) k f = field_of g k f.
Proof.
  intros Hr. unfold field_of. rewrite od_map_ensure.
  destruct (od_map g !! k') eqn:E; [done|].
  destruct (decide (k' = k)) as [->|Hne].
  - by rewrite lookup_insert_eq, E.
  - by rewrite lookup_insert_ne.
Qed.

Lemma field_of_updated (k' : string) (r : gmap string pyval) (f' : string) (v : pyval)
    (g : odict (gmap string pyval)) (k f : string) :
  r !! f = None →
  field_of (updated_groups k' r f' v g) k f =
    if decide (k' = k ∧ f' = f) then Some v else field_of g k f.
Proof.
  intros Hr. unfold field_of. rewrite od_map_updated.
  destruct (decide (k' = k)) as [->|Hne].
  - rewrite lookup_insert_eq.
    destruct (decide (f' = f)) as [->|Hf].
    + rewrite lookup_insert_eq. by rewrite decide_True.
    + rewrite lookup_insert_ne by done. rewrite decide_False by naive_solver.
      by destruct (od_map g !! k).
  - rewrite lookup_insert_ne by done. by rewrite decide_False by naive_solver.
Qed.

(** A property of records that holds of the new records and survives the
    assignment of the field named by the class of the span holds of all
    records after the iteration. *)
Lemma step_records (P : gmap string pyval → Prop) (st : state) (ext : Extraction) :
  (∀ n, P {[ "investment_name" := PStr n ]}) →
  (∀ n t, P {[ "investment_name" := PStr n; "investment_type" := PStr t ]}) →
  (∀ r v, P r →
     extraction_class ext ∈ "investment_type" :: investment_scoped_fields →
     P (<[extraction_class ext := v]> r)) →
  map_Forall (λ _, P) (od_map (investment_groups st)) →
  map_Forall (λ _, P) (od_map (investment_groups (step_closed st ext))).
Proof.
  intros Hn Hnt Hset Hall.
  assert (Hens : ∀ k r g, P r → map_Forall (λ _, P) (od_map g) →
                 map_Forall (λ _, P) (od_map (ensure_record k r g))).
  { intros k r g Hr Hg. rewrite od_map_ensure.
    destruct (od_map g !! k); [done|]. by apply map_Forall_insert_2. }
  assert (Hupd : ∀ k r f v g, f = extraction_class ext → P r →
                 map_Forall (λ _, P) (od_map g) →
                 extraction_class ext ∈ "investment_type" :: investment_scoped_fields →
                 map_Forall (λ _, P) (od_map (updated_groups k r f v g))).
  { intros k r f v g -> Hr Hg Hc. rewrite od_map_updated.
    apply map_Forall_insert_2; [|done]. apply Hset; [|done].
    destruct (od_map g !! k) eqn:E; simpl; [|done]. by apply (Hg k). }
  unfold step_closed, dispatch_closed, with_anchor.
  repeat case_decide; repeat case_match; simpl; try done;
    first [ by apply Hens
          | apply Hupd; [congruence | done | done | apply elem_of_cons; eauto] ].
Qed.

Lemma run_records (P : gmap string pyval → Prop) (spans : list Extraction) (st : state) :
  (∀ n, P {[ "investment_name" := PStr n ]}) →
  (∀ n t, P {[ "investment_name" := PStr n; "investment_type" := PStr t ]}) →
  (∀ ext r v, ext ∈ spans → P r →
     extraction_class ext ∈ "investment_type" :: investment_scoped_fields →
     P (<[extraction_class ext := v]> r)) →
  map_Forall (λ _, P) (od_map (investment_groups st)) →
  map_Forall (λ _, P) (od_map (investment_groups (run_closed st spans))).
Proof.
  intros Hn Hnt. revert st.
  induction spans as [|ext rest IH]; intros st Hset Hall; simpl; [done|].
  apply IH.
  - intros e r v He. apply Hset. by right.
  - apply step_records; try done. intros r v. apply Hset. by left.
Qed.

(** ** The pass as a whole *)

Lemma normalize_data_closed_form (spans : list Extraction) :
  Vision.normalize_data spans =
    let st := run_closed initial_state spans in
    Ok (mkData (data_fund st)
          (Vision.keep_investments (od_values (investment_groups st)))
          (data_fees st) (data_contacts st) (data_source_anchors st)).
Proof. unfold Vision.normalize_data. by rewrite run_closed_form. Qed.

Lemma run_anchors (spans : list Extraction) (st : state) :
  data_source_anchors (run_closed st spans) =
    (data_source_anchors st ++ anchors_of spans)%list.
Proof.
  revert st. induction spans as [|ext rest IH]; intros st; simpl.
  - by rewrite app_nil_r.
  - unfold run_closed in IH. rewrite IH, step_anchors.
    unfold anchors_of. simpl. by rewrite app_assoc.
Qed.

Lemma run_fund (cls : string) (spans : list Extraction) (st : state) :
  cls ∈ fund_classes →
  data_fund (run_closed st spans) !! cls =
    match last_of_class cls spans with
    | Some e => Some (fund_value cls (extraction_text e))
    | None => data_fund st !! cls
    end.
Proof.
  intros Hcls. revert st.
  induction spans as [|ext rest IH]; intros st; simpl; [done|].
  unfold run_closed in IH. rewrite IH.
  destruct (last_of_class cls rest); [done|].
  rewrite step_fund. repeat case_decide; subst.
  - by rewrite lookup_insert_eq.
  - by rewrite lookup_insert_ne.
  - done.
  - done.
Qed.

Lemma run_fees (cls : string) (spans : list Extraction) (st : state) :
  cls ∈ fee_classes →
  data_fees (run_closed st spans) !! cls =
    match last_of_class cls spans with
    | Some e => Some (PStr (extraction_text e))
    | None => data_fees st !! cls
    end.
Proof.
  intros Hcls. revert st.
  induction spans as [|ext rest IH]; intros st; simpl; [done|].
  unfold run_closed in IH. rewrite IH.
  destruct (last_of_class cls rest); [done|].
  rewrite step_fees. repeat case_decide; subst.
  - by rewrite lookup_insert_eq.
  - by rewrite lookup_insert_ne.
  - done.
  - done.
Qed.

(** ** The final conversion of the groups *)

Lemma has_financial_data_currency (inv : gmap string pyval) (v : pyval) :
  Vision.has_financial_data (<["currency" := v]> inv) = Vision.has_financial_data inv.
Proof.
  unfold Vision.has_financial_data. by rewrite !lookup_insert_ne.
Qed.

Lemma elem_of_keep_investments (inv : gmap string pyval) (l : list (gmap string pyval)) :
  inv ∈ Vision.keep_investments l ↔
    ∃ r, r ∈ l ∧ Vision.has_financial_data r = true ∧ inv = <["currency" := PStr "USD"]> r.
Proof.
  induction l as [|r l IH]; simpl.
  - split; [by intros ?%elem_of_nil | by intros (? & ?%elem_of_nil & _)].
  - destruct (Vision.has_financial_data r) eqn:E.
    + rewrite elem_of_cons, IH. split.
      * intros [->|(r' & ? & ? & ?)]; [exists r | exists r']; set_solver.
      * intros (r' & [->|?]%elem_of_cons & ? & ?); [by left | right; eauto].
    + rewrite IH. split.
      * intros (r' & ? & ? & ?). exists r'. set_solver.
      * intros (r' & [->|?]%elem_of_cons & ? & ?); [congruence | eauto].
Qed.

Lemma keep_investments_nil (l : list (gmap string pyval)) :
  Forall (λ r, Vision.has_financial_data r = false) l → Vision.keep_investments l = [].
Proof.
  induction 1 as [|r l Hr _ IH]; simpl; [done|]. by rewrite Hr.
Qed.

(** ** The field of a record across one iteration *)

Lemma step_field (st : state) (ext : Extraction) (k f : string) :
  f ∈ investment_scoped_fields →
  field_of (investment_groups (step_closed st ext)) k f =
    if decide (extraction_class ext = f ∧ attached_key (cursor st) = Some k)
    then Some (field_value f (extraction_text ext))
    else field_of (investment_groups st) k f.
Proof.
  intros Hf.
  assert (Hfn : "investment_name" ≠ f) by (intros <-; class_absurd).
  assert (Hft : "investment_type" ≠ f) by (intros <-; class_absurd).
  assert (Hr1 : ∀ n, ({[ "investment_name" := PStr n ]} : gmap string pyval) !! f = None)
    by (intros n; by rewrite lookup_singleton_ne).
  assert (Hr2 : ∀ n t, ({[ "investment_name" := PStr n; "investment_type" := PStr t ]}
                          : gmap string pyval) !! f = None)
    by (intros n t; by rewrite lookup_insert_ne, lookup_singleton_ne).
  unfold attached_key, cursor. simpl.
  unfold step_closed, dispatch_closed, with_anchor.
  repeat case_decide; repeat case_match; simpl;
    rewrite ?field_of_ensure, ?field_of_updated by done;
    repeat case_decide; try done.
  all: try (destruct_and?; simplify_eq; class_absurd).
  all: destruct_and?; simplify_eq; first [done | naive_solver].
Qed.

Lemma run_field (f k : string) (spans : list Extraction) (st : state) :
  f ∈ investment_scoped_fields →
  field_of (investment_groups (run_closed st spans)) k f =
    match last_attached f k (cursor st) spans with
    | Some txt => Some (field_value f txt)
    | None => field_of (investment_groups st) k f
    end.
Proof.
  intros Hf. revert st.
  induction spans as [|ext rest IH]; intros st; simpl; [done|].
  unfold run_closed in IH. rewrite IH, step_cursor.
  destruct (last_attached f k (cursor_step (cursor st) ext) rest); [done|].
  rewrite step_field by done. by case_decide.
Qed.

(** ** Shapes of the stored values, and the schema *)

Lemma step_fund_typed (st : state) (ext : Extraction) :
  fund_typed (data_fund st) → fund_typed (data_fund (step_closed st ext)).
Proof.
  intros Ht. rewrite step_fund. case_decide; [|done].
  intros k v. rewrite lookup_insert. case_decide as Hk; [|apply Ht].
  intros [= <-]. subst k. unfold fund_value, vintage_value.
  case_decide; [|eauto].
  destruct (py_int _); eauto.
Qed.

Lemma step_fees_typed (st : state) (ext : Extraction) :
  fees_typed (data_fees st) → fees_typed (data_fees (step_closed st ext)).
Proof.
  intros Ht. rewrite step_fees. case_decide; [|done].
  intros k v. rewrite lookup_insert. case_decide; [|apply Ht].
  intros [= <-]. eauto.
Qed.

Lemma step_contacts_typed (st : state) (ext : Extraction) :
  Forall contact_typed (data_contacts st) →
  Forall contact_typed (data_contacts (step_closed st ext)).
Proof.
  intros Ht. destruct (step_contacts st ext) as [->|(c & Hc & ->)]; [done|].
  apply Forall_app. split; [done|]. by constructor.
Qed.

Lemma run_typed (spans : list Extraction) (st : state) :
  fund_typed (data_fund st) → fees_typed (data_fees st) →
  Forall contact_typed (data_contacts st) →
  let st' := run_closed st spans in
  fund_typed (data_fund st') ∧ fees_typed (data_fees st')
  ∧ Forall contact_typed (data_contacts st').
Proof.
  revert st. induction spans as [|ext rest IH]; intros st H1 H2 H3; simpl; [done|].
  apply IH; auto using step_fund_typed, step_fees_typed, step_contacts_typed.
Qed.

Lemma opt_str_total (o : option pyval) :
  (∀ v, o = Some v → v = PNone ∨ ∃ s, v = PStr s) → ∃ x, Schema.opt_str o = Ok x.
Proof.
  intros H. destruct o as [v|]; simpl; [|eauto].
  destruct (H v eq_refl) as [->|[s ->]]; eauto.
Qed.

Lemma FundEntity_init_total (d : gmap string pyval) :
  fund_typed d → ∃ m, Schema.FundEntity_init d = Ok m.
Proof.
  intros Ht. unfold Schema.FundEntity_init.
  assert (Hs : ∀ k, k ≠ "vintage_year" → ∃ x, Schema.opt_str (d !! k) = Ok x).
  { intros k Hk. apply opt_str_total. intros v Hv. apply Ht in Hv.
    rewrite decide_False in Hv by done. by right. }
  assert (Hi : ∃ x, Schema.opt_int (d !! "vintage_year") = Ok x).
  { destruct (d !! "vintage_year") as [v|] eqn:E; simpl; [|eauto].
    apply Ht in E. rewrite decide_True in E by done.
    destruct E as [->|[n ->]]; eauto. }
  destruct (Hs "fund_name") as [? ->]; [done|].
  destruct Hi as [? ->].
  destruct (Hs "gp_name") as [? ->]; [done|].
  destruct (Hs "domicile") as [? ->]; [done|].
  destruct (Hs "strategy") as [? ->]; [done|].
  simpl. eauto.
Qed.

Lemma FeeTerms_init_total (d : gmap string pyval) :
  fees_typed d → ∃ m, Schema.FeeTerms_init d = Ok m.
Proof.
  intros Ht. unfold Schema.FeeTerms_init.
  assert (Hs : ∀ k, ∃ x, Schema.opt_str (d !! k) = Ok x).
  { intros k. apply opt_str_total. intros v Hv. right. by apply (Ht k). }
  destruct (Hs "management_fee") as [? ->].
  destruct (Hs "carry") as [? ->].
  destruct (Hs "hurdle_rate") as [? ->].
  destruct (Hs "catch_up") as [? ->].
  simpl. eauto.
Qed.

Lemma contacts_init_total (l : list (gmap string pyval)) :
  Forall contact_typed l → ∃ cs, Schema.contacts_init l = Ok cs.
Proof.
  induction 1 as [|c l Hc _ [cs IH]]; simpl; [eauto|].
  unfold Schema.KeyContacts_init.
  assert (Hs : ∀ k, ∃ x, Schema.opt_str (c !! k) = Ok x).
  { intros k. apply opt_str_total. intros v Hv. by apply (Hc k). }
  destruct (Hs "name") as [? ->].
  destruct (Hs "title") as [? ->].
  destruct (Hs "email") as [? ->].
  destruct (Hs "phone") as [? ->].
  simpl. rewrite IH. simpl. eauto.
Qed.

(** The model built from any well-shaped [data]: the keyword
    ["investments"] names no field of the schema and is not read, and the
    field [investment] takes its default. *)
Lemma FundDocExtraction_init_data (d : Data) :
  fund_typed (fund d) → fees_typed (fees d) → Forall contact_typed (contacts d) →
  ∃ fu fe cs,
    Schema.FundDocExtraction_init (data_kwargs d) =
      Ok (Schema.mkFundDocExtraction fu
            (Schema.mkInvestment None None None None None None None None None None None)
            fe cs (Some (source_anchors d))).
Proof.
  intros H1 H2 H3.
  destruct (FundEntity_init_total _ H1) as [fu Hfu].
  destruct (FeeTerms_init_total _ H2) as [fe Hfe].
  destruct (contacts_init_total _ H3) as [cs Hcs].
  exists fu, fe, cs.
  unfold Schema.FundDocExtraction_init, data_kwargs.
  repeat (rewrite lookup_insert; case_decide; try done).
  rewrite ?lookup_singleton.
  repeat (case_decide; try done).
  rewrite Hfu, Hfe, Hcs. done.
Qed.

Lemma normalize_to_schema_total (spans : list Extraction) :
  ∃ fu fe cs,
    Vision.normalize_to_schema spans =
      Ok (Schema.mkFundDocExtraction fu
            (Schema.mkInvestment None None None None None None None None None None None)
            fe cs (Some (anchors_of spans))).
Proof.
  unfold Vision.normalize_to_schema. rewrite normalize_data_closed_form. simpl.
  destruct (run_typed spans initial_state) as (H1 & H2 & H3).
  { intros k v. simpl. by rewrite lookup_empty. }
  { intros k v. simpl. by rewrite lookup_empty. }
  { constructor. }
  match goal with
  | |- context [data_kwargs ?d] =>
      destruct (FundDocExtraction_init_data d H1 H2 H3) as (fu & fe & cs & ->)
  end.
  simpl. rewrite run_anchors. simpl. eauto.
Qed.

(** * Main results *)

(** C1.  The serialized document has no key [investments]: the schema
    declares the field [investment], a single record, and no field
    [investments].  For every
    span sequence [normalize_to_schema] returns a model, and the document it
    serializes to has the top-level keys [fund], [investment], [fees],
    [contacts], [source_anchors]; for the four spans of investment "A" the
    value under [investment] is the all-null default record: the keyword
    [investments] built by the pass is not read.  The docling variant, which
    sits next to the schema, does the same. *)
Theorem model_dump_has_investment_not_investments :
  (∀ spans, ∃ m, Vision.normalize_to_schema spans = Ok m
     ∧ map fst (Schema.model_dump_json m)
         = ["fund"; "investment"; "fees"; "contacts"; "source_anchors"])
  ∧ (∃ m, Vision.normalize_to_schema spans_A_equity = Ok m
     ∧ ("investments" ∉ map fst (Schema.model_dump_json m))
     ∧ Schema.investment m
         = Schema.mkInvestment None None None None None None None None None None None)
  ∧ (∃ m, Docling.normalize_to_schema spans_A_equity = Ok m
     ∧ ("investments" ∉ map fst (Schema.model_dump_json m))
     ∧ Schema.investment m
         = Schema.mkInvestment None None None None None None None None None None None).
Proof.
  assert (Hkeys : ∀ m, "investments" ∉ map fst (Schema.model_dump_json m)).
  { intros m H. simpl in H. apply (bool_decide_pack _) in H. vm_compute in H. by destruct H. }
  split; [|split].
  - intros spans. destruct (normalize_to_schema_total spans) as (fu & fe & cs & ->).
    eexists. split; [done|]. done.
  - destruct (normalize_to_schema_total spans_A_equity) as (fu & fe & cs & ->).
    eexists. split; [done|]. split; [apply Hkeys|done].
  - eexists. split; [vm_compute; reflexivity|]. split; [apply Hkeys|done].
Qed.

(** C2, as amended.  For the four spans of investment "A" the final
    investments list of [backend/pipeline.py] holds exactly one record, with
    name "A", type "Equity", cost 1000000.0 and fair value 1200000.0 (and
    the currency "USD" set by the final loop); the list of the docling
    variant holds two records, first the name-only record created by the
    [investment_name] span, then the record with the four fields. *)
Theorem four_spans_one_record_after_filter :
  Vision.normalize_data spans_A_equity =
    Ok (mkData ∅
          [ {[ "investment_name" := PStr "A"; "investment_type" := PStr "Equity";
               "investment_cost" := PFloat (1000000 # 1);
               "fair_value" := PFloat (1200000 # 1);
               "currency" := PStr "USD" ]} ]
          ∅ [] [])
  ∧ Docling.normalize_data spans_A_equity =
    Ok (mkData ∅
          [ {[ "investment_name" := PStr "A" ]};
            {[ "investment_name" := PStr "A"; "investment_type" := PStr "Equity";
               "investment_cost" := PFloat (1000000 # 1);
               "fair_value" := PFloat (1200000 # 1) ]} ]
          ∅ [] []).
Proof. split; vm_compute; reflexivity. Qed.

(** C2, counterexample.  In the docling variant the final investments list
    for the four spans is not a list of exactly one record. *)
Lemma docling_four_spans_not_one_record :
  ¬ ∃ d inv, Docling.normalize_data spans_A_equity = Ok d ∧ investments d = [inv].
Proof.
  intros (d & inv & Hd & Hinv).
  assert (H : length (investments d) = 2).
  { revert Hd. vm_compute. by intros [= <-]. }
  rewrite Hinv in H. discriminate H.
Qed.

(** C3.  [normalize_to_schema] returns a model for every span sequence, the
    validation by the schema included.  A [vintage_year] span whose text does
    not parse stores [None] under [vintage_year], and a span of a numeric
    investment field whose text does not parse, arriving when the current
    name and type are known, stores [None] in that field of the current
    record. *)
Theorem normalize_never_raises :
  (∀ spans, ∃ m, Vision.normalize_to_schema spans = Ok m)
  ∧ (∀ st ext e,
       extraction_class ext = "vintage_year" →
       py_int (re_sub_non_digit (extraction_text ext)) = Raise e →
       ∃ st', Vision.step st ext = Ok st'
         ∧ data_fund st' !! "vintage_year" = Some PNone)
  ∧ (∀ st ext n t e,
       extraction_class ext ∈ numeric_investment_fields →
       truthy (current_investment_name st) = Some n →
       truthy (current_investment_type st) = Some t →
       py_float (re_sub_non_numeric (extraction_text ext)) = Raise e →
       ∃ st', Vision.step st ext = Ok st'
         ∧ field_of (investment_groups st') (unique_key_of n t) (extraction_class ext)
             = Some PNone).
Proof.
  split; [|split].
  - intros spans. destruct (normalize_to_schema_total spans) as (fu & fe & cs & ->). eauto.
  - intros st ext e Hcls Hparse. rewrite step_closed_form. eexists. split; [done|].
    rewrite step_fund, Hcls. rewrite decide_True by (apply (bool_decide_unpack _); by vm_compute).
    rewrite lookup_insert_eq. unfold fund_value, vintage_value.
    rewrite decide_True by done. by rewrite Hparse.
  - intros st ext n t e Hcls Hn Ht Hparse. rewrite step_closed_form. eexists. split; [done|].
    assert (Hscoped : extraction_class ext ∈ investment_scoped_fields).
    { unfold numeric_investment_fields, investment_scoped_fields in *. set_solver. }
    rewrite step_field by done. unfold attached_key, cursor. simpl. rewrite Hn, Ht.
    rewrite decide_True by done. unfold field_value, float_value.
    rewrite decide_True by done. by rewrite Hparse.
Qed.

(** C3, witness: the cost "N/A" of investment "A" of type "Equity". *)
Lemma normalize_never_raises_witness :
  ∃ st', Vision.step (mkState ∅ ∅ [] [] od_empty (Some "A") (Some "Equity"))
           (span "investment_cost" "N/A") = Ok st'
    ∧ field_of (investment_groups st') (unique_key_of "A" "Equity") "investment_cost"
        = Some PNone.
Proof.
  destruct normalize_never_raises as (_ & _ & H).
  apply (H (mkState ∅ ∅ [] [] od_empty (Some "A") (Some "Equity"))
           (span "investment_cost" "N/A") "A" "Equity" ValueError).
  - apply (bool_decide_unpack _). vm_compute. exact I.
  - reflexivity.
  - reflexivity.
  - vm_compute. reflexivity.
Defined.

(** C4, as amended.  In [backend/pipeline.py] a record is present in the
    final investments list only if one of its [investment_cost],
    [fair_value], [ownership] is not null, and a sequence without spans of
    these three classes yields an empty list.  The docling variant has no
    filter: its final list is the list of all the grouped records. *)
Theorem retained_records_have_financial_data (spans : list Extraction) :
  (∀ d, Vision.normalize_data spans = Ok d →
     (∀ inv, inv ∈ investments d →
        is_not_none (inv !! "investment_cost")
        || is_not_none (inv !! "fair_value")
        || is_not_none (inv !! "ownership") = true)
     ∧ ((∀ ext, ext ∈ spans →
           extraction_class ext ∉ ["investment_cost"; "fair_value"; "ownership"]) →
        investments d = []))
  ∧ (∀ d, Docling.normalize_data spans = Ok d →
       ∃ st, Docling.run initial_state (Docling.fix_known_extraction_issues spans) = Ok st
         ∧ investments d = od_values (investment_groups st)).
Proof.
  split.
  - intros d. rewrite normalize_data_closed_form. simpl. intros [= <-]. simpl. split.
    + intros inv (r & _ & Hr & ->)%elem_of_keep_investments.
      by rewrite <- (has_financial_data_currency r (PStr "USD")) in Hr.
    + intros Hcls. apply keep_investments_nil, Forall_forall.
      intros r (k & Hk)%od_values_lookup. revert k r Hk.
      apply (run_records (λ r, Vision.has_financial_data r = false)).
      * intros n. unfold Vision.has_financial_data. by rewrite !lookup_singleton_ne.
      * intros n t. unfold Vision.has_financial_data.
        by rewrite !lookup_insert_ne, !lookup_singleton_ne.
      * intros ext r v Hext Hr _. specialize (Hcls ext Hext).
        unfold Vision.has_financial_data in *.
        rewrite !lookup_insert_ne; [done|intros E; rewrite E in Hcls; set_solver..].
      * intros k r. simpl. by rewrite lookup_empty.
  - intros d. unfold Docling.normalize_data.
    destruct (Docling.run initial_state (Docling.fix_known_extraction_issues spans)) as [st|e];
      simpl; [|done].
    intros [= <-]. eauto.
Qed.

(** C4, witness: the four spans of investment "A". *)
Lemma retained_records_have_financial_data_witness :
  is_not_none (record_A_equity !! "investment_cost")
  || is_not_none (record_A_equity !! "fair_value")
  || is_not_none (record_A_equity !! "ownership") = true.
Proof.
  refine (proj1 (proj1 (retained_records_have_financial_data spans_A_equity)
                   (mkData ∅ [record_A_equity] ∅ [] []) _) record_A_equity _).
  - vm_compute. reflexivity.
  - constructor.
Defined.

(** C4, counterexample.  In the docling variant the record built from a name
    span and a type span alone is present in the final investments list
    although its [investment_cost], [fair_value] and [ownership] are all
    null. *)
Lemma docling_keeps_record_without_financial_data :
  ∃ d inv, Docling.normalize_data spans_name_type_only = Ok d
    ∧ inv ∈ investments d
    ∧ inv !! "investment_name" = Some (PStr "A")
    ∧ inv !! "investment_type" = Some (PStr "Equity")
    ∧ is_not_none (inv !! "investment_cost") = false
    ∧ is_not_none (inv !! "fair_value") = false
    ∧ is_not_none (inv !! "ownership") = false.
Proof.
  exists (mkData ∅ [ {[ "investment_name" := PStr "A" ]};
                     {[ "investment_name" := PStr "A"; "investment_type" := PStr "Equity" ]} ]
            ∅ [] []).
  exists {[ "investment_name" := PStr "A"; "investment_type" := PStr "Equity" ]}.
  split; [vm_compute; reflexivity|].
  split; [simpl; set_solver|].
  repeat split; vm_compute; reflexivity.
Qed.

(** C9, as amended.  [source_anchors] is the list of the anchors of the spans
    that carry one, whatever their class, in the order of the spans and with
    one entry per span: an anchor carried by several spans is repeated. *)
Theorem source_anchors_in_span_order (spans : list Extraction) :
  ∃ d, Vision.normalize_data spans = Ok d ∧ source_anchors d = anchors_of spans.
Proof.
  rewrite normalize_data_closed_form. simpl. eexists. split; [done|].
  simpl. by rewrite run_anchors.
Qed.

(** C9, counterexample.  Two spans carrying the anchor "p3" give a
    [source_anchors] with that string twice. *)
Lemma source_anchors_keep_duplicates :
  ∃ d, Vision.normalize_data spans_same_anchor = Ok d
    ∧ source_anchors d = ["p3"; "p3"]
    ∧ ¬ NoDup (source_anchors d).
Proof.
  exists (mkData {[ "fund_name" := PStr "F" ]} [] {[ "carry" := PStr "20%" ]} []
            ["p3"; "p3"]).
  split; [vm_compute; reflexivity|]. split; [done|].
  simpl. intros H. apply NoDup_cons in H as [H _]. apply H. by left.
Qed.

(** C5.  A span of an investment-scoped field that arrives while the current
    name or the current type is unset (or empty) leaves the groups, the fund,
    the fees, the contacts and the rolling pair as they were; only its
    anchor, if it has one, is collected. *)
Theorem investment_field_dropped_without_cursor
    (pre : list Extraction) (ext : Extraction) (st : state) :
  Vision.run initial_state pre = Ok st →
  extraction_class ext ∈ investment_scoped_fields →
  truthy (current_investment_name st) = None
    ∨ truthy (current_investment_type st) = None →
  ∃ st', Vision.run initial_state (pre ++ [ext]) = Ok st'
    ∧ investment_groups st' = investment_groups st
    ∧ data_fund st' = data_fund st
    ∧ data_fees st' = data_fees st
    ∧ data_contacts st' = data_contacts st
    ∧ cursor st' = cursor st
    ∧ data_source_anchors st' = (data_source_anchors st ++ anchor_of ext)%list.
Proof.
  rewrite !run_closed_form, run_closed_app. intros [= <-] Hcls Hcur.
  eexists. split; [done|]. simpl.
  unfold step_closed, dispatch_closed, with_anchor, cursor.
  repeat case_decide; try class_absurd.
  destruct Hcur as [-> | ->]; repeat case_match; done.
Qed.

(** C5, witness: a currency span after a name span, before any type. *)
Lemma investment_field_dropped_without_cursor_witness :
  ∃ st', Vision.run initial_state ([span "investment_name" "A"] ++ [span_at "currency" "EUR" "p1"])
           = Ok st'
    ∧ investment_groups st' = investment_groups (run_closed initial_state [span "investment_name" "A"])
    ∧ data_fund st' = ∅
    ∧ data_fees st' = ∅
    ∧ data_contacts st' = []
    ∧ cursor st' = (Some "A", None)
    ∧ data_source_anchors st' = ["p1"].
Proof.
  apply (investment_field_dropped_without_cursor
           [span "investment_name" "A"] (span_at "currency" "EUR" "p1")
           (run_closed initial_state [span "investment_name" "A"])).
  - vm_compute. reflexivity.
  - apply (bool_decide_unpack _). vm_compute. exact I.
  - right. reflexivity.
Defined.

(** C8.  An [investment_name] span whose grouping key is already in the
    groups leaves the groups as they are, every field of every record and
    their order included; it sets the current name to its text and changes
    nothing else but the anchors. *)
Theorem investment_name_existing_key_frame
    (pre : list Extraction) (ext : Extraction) (st : state) :
  Vision.run initial_state pre = Ok st →
  extraction_class ext = "investment_name" →
  od_contains (name_key st (extraction_text ext)) (investment_groups st) = true →
  ∃ st', Vision.run initial_state (pre ++ [ext]) = Ok st'
    ∧ investment_groups st' = investment_groups st
    ∧ current_investment_name st' = Some (extraction_text ext)
    ∧ current_investment_type st' = current_investment_type st
    ∧ data_fund st' = data_fund st
    ∧ data_fees st' = data_fees st
    ∧ data_contacts st' = data_contacts st.
Proof.
  rewrite !run_closed_form, run_closed_app. intros [= <-] Hcls Hkey.
  eexists. split; [done|]. simpl.
  unfold step_closed, dispatch_closed, with_anchor.
  repeat case_decide; try class_absurd. simpl.
  unfold name_key in Hkey. unfold ensure_record. by rewrite Hkey.
Qed.

(** C8, witness: the name "A" again, after investment "A" of type "Equity"
    has received a cost. *)
Lemma investment_name_existing_key_frame_witness :
  ∃ st', Vision.run initial_state
           ([span "investment_name" "A"; span "investment_type" "Equity";
             span "investment_cost" "5"] ++ [span "investment_name" "A"]) = Ok st'
    ∧ investment_groups st'
        = investment_groups
            (run_closed initial_state
               [span "investment_name" "A"; span "investment_type" "Equity";
                span "investment_cost" "5"])
    ∧ current_investment_name st' = Some "A"
    ∧ current_investment_type st' = Some "Equity"
    ∧ data_fund st' = ∅
    ∧ data_fees st' = ∅
    ∧ data_contacts st' = [].
Proof.
  apply (investment_name_existing_key_frame
           [span "investment_name" "A"; span "investment_type" "Equity";
            span "investment_cost" "5"]
           (span "investment_name" "A")
           (run_closed initial_state
              [span "investment_name" "A"; span "investment_type" "Equity";
               span "investment_cost" "5"])).
  - vm_compute. reflexivity.
  - reflexivity.
  - vm_compute. reflexivity.
Defined.

(** C7.  When a sequence has spans of a fund-level class, the entry of that
    class in [data["fund"]] is the value derived from the last of them (its
    text, or for [vintage_year] its parsed year or [None]); when it has spans
    of a fee class, the entry in [data["fees"]] is the text of the last of
    them, as a string. *)
Theorem fund_and_fee_last_wins
    (spans : list Extraction) (d : Data) (cls : string) (ext : Extraction) :
  Vision.normalize_data spans = Ok d →
  last_of_class cls spans = Some ext →
  (cls ∈ fund_classes → fund d !! cls = Some (fund_value cls (extraction_text ext)))
  ∧ (cls ∈ fee_classes → fees d !! cls = Some (PStr (extraction_text ext))).
Proof.
  rewrite normalize_data_closed_form. simpl. intros [= <-] Hlast. simpl. split; intros Hcls.
  - by rewrite run_fund, Hlast.
  - by rewrite run_fees, Hlast.
Qed.

(** C7, witness: two fund names and two carries. *)
Lemma fund_and_fee_last_wins_witness :
  ({[ "fund_name" := PStr "Y" ]} : gmap string pyval) !! "fund_name"
    = Some (fund_value "fund_name" "Y").
Proof.
  refine (proj1 (fund_and_fee_last_wins
           [span "fund_name" "X"; span "carry" "10%"; span "fund_name" "Y"; span "carry" "20%"]
           (mkData {[ "fund_name" := PStr "Y" ]} [] {[ "carry" := PStr "20%" ]} [] [])
           "fund_name" (span "fund_name" "Y") _ _) _).
  - vm_compute. reflexivity.
  - vm_compute. reflexivity.
  - apply (bool_decide_unpack _). vm_compute. exact I.
Defined.

(** C6, as amended.  After the pass, the grouped record under a key holds as
    its currency the text of the last currency span that arrived while the
    current name and type were both set and formed that key.  The final loop
    then overwrites it: every record of the final investments list has the
    currency "USD". *)
Theorem currency_last_wins_in_groups_usd_in_output (spans : list Extraction) :
  ∃ st, Vision.run initial_state spans = Ok st
    ∧ (∀ k txt,
         last_attached "currency" k (None, None) spans = Some txt →
         field_of (investment_groups st) k "currency" = Some (PStr txt))
    ∧ (∀ d inv,
         Vision.normalize_data spans = Ok d →
         inv ∈ investments d →
         inv !! "currency" = Some (PStr "USD")).
Proof.
  rewrite run_closed_form. eexists. split; [done|]. split.
  - intros k txt Hlast.
    rewrite run_field by (apply (bool_decide_unpack _); by vm_compute).
    change (cursor initial_state) with (@None string, @None string).
    rewrite Hlast. unfold field_value.
    by rewrite decide_False by (intros H; class_absurd).
  - intros d inv. rewrite normalize_data_closed_form. simpl. intros [= <-]. simpl.
    intros (r & _ & _ & ->)%elem_of_keep_investments.
    by rewrite lookup_insert_eq.
Qed.

(** C6, witness: investment "A" of type "Equity" with the currency "EUR". *)
Lemma currency_last_wins_in_groups_usd_in_output_witness :
  ∃ st, Vision.run initial_state spans_currency_eur = Ok st
    ∧ field_of (investment_groups st) "A_Equity" "currency" = Some (PStr "EUR")
    ∧ ({[ "investment_name" := PStr "A"; "investment_type" := PStr "Equity";
          "currency" := PStr "USD";
          "investment_cost" := PFloat (5 # 1) ]} : gmap string pyval) !! "currency"
        = Some (PStr "USD").
Proof.
  destruct (currency_last_wins_in_groups_usd_in_output spans_currency_eur)
    as (st & Hrun & Hgroups & Hout).
  exists st. split; [exact Hrun|]. split.
  - apply Hgroups. vm_compute. reflexivity.
  - apply (Hout (mkData ∅
                   [ {[ "investment_name" := PStr "A"; "investment_type" := PStr "Equity";
                        "currency" := PStr "USD";
                        "investment_cost" := PFloat (5 # 1) ]} ]
                   ∅ [] [])).
    + vm_compute. reflexivity.
    + constructor.
Defined.

(** C6, counterexample.  A currency span "EUR" attached to investment "A" of
    type "Equity": the record of the final investments list has the currency
    "USD", not "EUR". *)
Lemma currency_span_overwritten_by_usd :
  ∃ d inv, Vision.normalize_data spans_currency_eur = Ok d
    ∧ investments d = [inv]
    ∧ last_attached "currency" "A_Equity" (None, None) spans_currency_eur = Some "EUR"
    ∧ inv !! "currency" = Some (PStr "USD")
    ∧ inv !! "currency" ≠ Some (PStr "EUR").
Proof.
  exists (mkData ∅
            [ {[ "investment_name" := PStr "A"; "investment_type" := PStr "Equity";
                 "currency" := PStr "USD"; "investment_cost" := PFloat (5 # 1) ]} ]
            ∅ [] []).
  eexists. split; [vm_compute; reflexivity|]. split; [done|].
  split; [vm_compute; reflexivity|].
  split; [vm_compute; reflexivity|].
  vm_compute. discriminate.
Qed.

(** C10.  Every record of the final investments list has a string under
    [investment_name].  Its [investment_type] may be missing: a type span
    followed by a name span and a cost gives a retained record without
    one. *)
Theorem retained_records_have_name :
  (∀ spans d inv,
     Vision.normalize_data spans = Ok d →
     inv ∈ investments d →
     ∃ s, inv !! "investment_name" = Some (PStr s))
  ∧ (∃ d inv, Vision.normalize_data spans_type_first = Ok d
       ∧ investments d = [inv]
       ∧ inv !! "investment_name" = Some (PStr "A")
       ∧ inv !! "investment_type" = None).
Proof.
  split.
  - intros spans d inv. rewrite normalize_data_closed_form. simpl. intros [= <-]. simpl.
    intros (r & (k & Hk)%od_values_lookup & _ & ->)%elem_of_keep_investments.
    rewrite lookup_insert_ne by done. revert k r Hk.
    apply (run_records (λ r, ∃ s, r !! "investment_name" = Some (PStr s))).
    + intros n. exists n. by rewrite lookup_singleton_eq.
    + intros n t. exists n. by rewrite lookup_insert_eq.
    + intros ext r v _ [s Hs] Hcls. exists s.
      rewrite lookup_insert_ne; [done|]. intros E. rewrite E in Hcls. class_absurd.
    + intros k r. simpl. by rewrite lookup_empty.
  - exists (mkData ∅
              [ {[ "investment_name" := PStr "A"; "investment_cost" := PFloat (5 # 1);
                   "currency" := PStr "USD" ]} ]
              ∅ [] []).
    eexists. split; [vm_compute; reflexivity|]. split; [done|].
    split; vm_compute; reflexivity.
Qed.

(** C10, witness: the four spans of investment "A". *)
Lemma retained_records_have_name_witness :
  ∃ s, record_A_equity !! "investment_name" = Some (PStr s).
Proof.
  destruct retained_records_have_name as [H _].
  apply (H spans_A_equity (mkData ∅ [record_A_equity] ∅ [] [])).
  - vm_compute. reflexivity.
  - constructor.
Defined.

(** * Further properties of [backend/pipeline.py] *)

(** ** Contacts *)

Lemma step_contacts_eq (st : state) (ext : Extraction) :
  data_contacts (step_closed st ext) =
    (data_contacts st
     ++ if decide (extraction_class ext = "contact") then [contact_of ext] else [])%list.
Proof.
  unfold contact_of. step_cases; rewrite ?app_nil_r; try done; class_absurd.
Qed.

Lemma run_contacts (spans : list Extraction) (st : state) :
  data_contacts (run_closed st spans) = (data_contacts st ++ contacts_of spans)%list.
Proof.
  revert st. induction spans as [|ext rest IH]; intros st; simpl.
  - by rewrite app_nil_r.
  - unfold run_closed in IH. rewrite IH, step_contacts_eq. unfold contacts_of.
    rewrite filter_cons. case_decide; simpl; rewrite <- app_assoc; done.
Qed.

(** X1.  Every [contact] span becomes one record of [data["contacts"]], in
    the order of the spans: its text as [name], and [title], [email],
    [phone] read from its attributes ([None] when missing).  No other span
    adds or changes a contact. *)
Theorem contacts_one_per_contact_span (spans : list Extraction) :
  ∃ d, Vision.normalize_data spans = Ok d ∧ contacts d = contacts_of spans.
Proof.
  rewrite normalize_data_closed_form. simpl. eexists. split; [done|].
  simpl. by rewrite run_contacts.
Qed.

(** ** Spans of other classes *)

Lemma step_same_but_anchors (st st' : state) (ext : Extraction) :
  same_but_anchors st st' →
  same_but_anchors (step_closed st ext) (step_closed st' ext).
Proof.
  unfold same_but_anchors, cursor. intros (H1 & H2 & H3 & H4 & H5).
  destruct st, st'. simpl in *. simplify_eq.
  unfold step_closed, dispatch_closed, with_anchor. simpl.
  repeat case_decide; repeat case_match; simpl; done.
Qed.

Lemma step_unhandled (st : state) (ext : Extraction) :
  extraction_class ext ∉ handled_classes →
  same_but_anchors (step_closed st ext) st.
Proof.
  unfold handled_classes. rewrite !elem_of_app. intros Hcls.
  unfold same_but_anchors, cursor, step_closed, dispatch_closed, with_anchor.
  repeat case_decide; simpl; try done; exfalso; apply Hcls; set_solver.
Qed.

Lemma run_filter_handled (spans : list Extraction) (st st' : state) :
  same_but_anchors st st' →
  same_but_anchors
    (run_closed st spans)
    (run_closed st' (filter (λ ext, extraction_class ext ∈ handled_classes) spans)).
Proof.
  revert st st'. induction spans as [|ext rest IH]; intros st st' Hst; simpl; [done|].
  rewrite filter_cons. case_decide as Hcls; simpl.
  - apply IH. by apply step_same_but_anchors.
  - apply IH. destruct (step_unhandled st ext Hcls) as (H1 & H2 & H3 & H4 & H5).
    destruct Hst as (G1 & G2 & G3 & G4 & G5).
    unfold same_but_anchors. rewrite H1, H2, H3, H4, H5. done.
Qed.

(** X2.  Spans whose class no branch handles are ignored: dropping them from
    the sequence changes neither the fund, the fees, the contacts nor the
    investments (only their anchors are collected). *)
Theorem unhandled_classes_ignored (spans : list Extraction) :
  ∃ d d',
    Vision.normalize_data spans = Ok d
    ∧ Vision.normalize_data
        (filter (λ ext, extraction_class ext ∈ handled_classes) spans) = Ok d'
    ∧ fund d = fund d' ∧ fees d = fees d' ∧ contacts d = contacts d'
    ∧ investments d = investments d'.
Proof.
  rewrite !normalize_data_closed_form. simpl. do 2 eexists.
  split; [done|]. split; [done|]. simpl.
  destruct (run_filter_handled spans initial_state initial_state)
    as (H1 & H2 & H3 & H4 & _); [done|].
  by rewrite H1, H2, H3, H4.
Qed.

(** ** Fields of the retained records *)

(** X3.  Every record of the final investments list comes from one grouping
    key, and for each investment-scoped field other than [currency] it holds
    the value derived from the last span of that class that arrived while the
    current name and type formed that key (nothing when there was none). *)
Theorem retained_fields_last_attached
    (spans : list Extraction) (d : Data) (inv : gmap string pyval) :
  Vision.normalize_data spans = Ok d →
  inv ∈ investments d →
  ∃ k, ∀ f,
    f ∈ investment_scoped_fields → f ≠ "currency" →
    inv !! f = field_value f <$> last_attached f k (None, None) spans.
Proof.
  rewrite normalize_data_closed_form. simpl. intros [= <-]. simpl.
  intros (r & (k & Hk)%od_values_lookup & _ & ->)%elem_of_keep_investments.
  exists k. intros f Hf Hcur.
  rewrite lookup_insert_ne by done.
  pose proof (run_field f k spans initial_state Hf) as H.
  unfold field_of in H. rewrite Hk in H. rewrite H.
  change (cursor initial_state) with (@None string, @None string).
  destruct (last_attached f k (None, None) spans); simpl; [done|].
  by rewrite lookup_empty.
Qed.

(** X3, witness: the cost of investment "A" of type "Equity". *)
Lemma retained_fields_last_attached_witness :
  ∃ k, ∀ f,
    f ∈ investment_scoped_fields → f ≠ "currency" →
    record_A_equity !! f = field_value f <$> last_attached f k (None, None) spans_A_equity.
Proof.
  apply (retained_fields_last_attached spans_A_equity
           (mkData ∅ [record_A_equity] ∅ [] []) record_A_equity).
  - vm_compute. reflexivity.
  - constructor.
Defined.

(** ** Groups that an iteration does not touch *)

Lemma lookup_ensure_ne (k' : string) (r : gmap string pyval)
    (g : odict (gmap string pyval)) (k : string) :
  k' ≠ k → od_map (ensure_record k' r g) !! k = od_map g !! k.
Proof.
  intros Hne. rewrite od_map_ensure. destruct (od_map g !! k'); [done|].
  by rewrite lookup_insert_ne.
Qed.

Lemma lookup_updated_ne (k' : string) (r : gmap string pyval) (f : string) (v : pyval)
    (g : odict (gmap string pyval)) (k : string) :
  k' ≠ k → od_map (updated_groups k' r f v g) !! k = od_map g !! k.
Proof.
  intros Hne. rewrite od_map_updated. by rewrite lookup_insert_ne.
Qed.

(** X4.  One iteration changes at most one group: the record under any key
    other than the key the span is attached to is left as it was, field by
    field. *)
Theorem other_groups_untouched
    (st st' : state) (ext : Extraction) (k : string) :
  Vision.step st ext = Ok st' →
  touched_key st ext ≠ Some k →
  od_map (investment_groups st') !! k = od_map (investment_groups st) !! k.
Proof.
  rewrite step_closed_form. intros [= <-].
  unfold touched_key, name_key, attached_key, cursor. simpl.
  unfold step_closed, dispatch_closed, with_anchor.
  repeat case_decide; repeat case_match; simpl; intros Hk; try done;
    try class_absurd;
    first [ apply lookup_ensure_ne | apply lookup_updated_ne ]; congruence.
Qed.

(** X4, witness: a cost for investment "B" of type "Debt" leaves the record
    of investment "A" of type "Equity" alone. *)
Lemma other_groups_untouched_witness :
  od_map (investment_groups
            (step_closed
               (run_closed initial_state
                  (spans_A_equity ++ [span "investment_name" "B"; span "investment_type" "Debt"]))
               (span "investment_cost" "7"))) !! "A_Equity"
  = od_map (investment_groups
              (run_closed initial_state
                 (spans_A_equity ++ [span "investment_name" "B"; span "investment_type" "Debt"])))
      !! "A_Equity".
Proof.
  apply (other_groups_untouched
           (run_closed initial_state
              (spans_A_equity ++ [span "investment_name" "B"; span "investment_type" "Debt"]))
           (step_closed
              (run_closed initial_state
                 (spans_A_equity ++ [span "investment_name" "B"; span "investment_type" "Debt"]))
              (span "investment_cost" "7"))
           (span "investment_cost" "7")).
  - vm_compute. reflexivity.
  - vm_compute. discriminate.
Defined.

(** ** Records whose financial values do not parse *)

Lemma step_records_values (P : gmap string pyval → Prop) (st : state) (ext : Extraction) :
  (∀ n, P {[ "investment_name" := PStr n ]}) →
  (∀ n t, P {[ "investment_name" := PStr n; "investment_type" := PStr t ]}) →
  (∀ r, P r → extraction_class ext = "investment_type" →
     P (<["investment_type" := PStr (extraction_text ext)]> r)) →
  (∀ r, P r → extraction_class ext ∈ investment_scoped_fields →
     P (<[extraction_class ext :=
            field_value (extraction_class ext) (extraction_text ext)]> r)) →
  map_Forall (λ _, P) (od_map (investment_groups st)) →
  map_Forall (λ _, P) (od_map (investment_groups (step_closed st ext))).
Proof.
  intros Hn Hnt Htype Hfield Hall.
  assert (Hens : ∀ k r g, P r → map_Forall (λ _, P) (od_map g) →
                 map_Forall (λ _, P) (od_map (ensure_record k r g))).
  { intros k r g Hr Hg. rewrite od_map_ensure.
    destruct (od_map g !! k); [done|]. by apply map_Forall_insert_2. }
  assert (Hupd : ∀ k r f v g, P r → map_Forall (λ _, P) (od_map g) →
                 (∀ r', P r' → P (<[f := v]> r')) →
                 map_Forall (λ _, P) (od_map (updated_groups k r f v g))).
  { intros k r f v g Hr Hg Hset. rewrite od_map_updated.
    apply map_Forall_insert_2; [|done]. apply Hset.
    destruct (od_map g !! k) eqn:E; simpl; [|done]. by apply (Hg k). }
  unfold step_closed, dispatch_closed, with_anchor.
  repeat case_decide; repeat case_match; simpl; try done;
    first [ by apply Hens
          | apply Hupd; [done | done | intros r' Hr'; by first [apply Htype | apply Hfield]] ].
Qed.

(** X5.  When every [investment_cost], [fair_value] and [ownership] span of
    a sequence has a text that does not parse as a number, no record is
    retained: the final investments list is empty. *)
Theorem unparsed_financials_retain_nothing (spans : list Extraction) (d : Data) :
  Vision.normalize_data spans = Ok d →
  (∀ ext, ext ∈ spans →
     extraction_class ext ∈ ["investment_cost"; "fair_value"; "ownership"] →
     ∃ e, py_float (re_sub_non_numeric (extraction_text ext)) = Raise e) →
  investments d = [].
Proof.
  rewrite normalize_data_closed_form. simpl. intros [= <-] Hbad. simpl.
  apply keep_investments_nil, Forall_forall.
  intros r (k & Hk)%od_values_lookup. revert k r Hk.
  assert (Hgen : ∀ st,
            (∀ ext, ext ∈ spans →
               extraction_class ext ∈ ["investment_cost"; "fair_value"; "ownership"] →
               ∃ e, py_float (re_sub_non_numeric (extraction_text ext)) = Raise e) →
            map_Forall (λ _ r, Vision.has_financial_data r = false)
              (od_map (investment_groups st)) →
            map_Forall (λ _ r, Vision.has_financial_data r = false)
              (od_map (investment_groups (run_closed st spans)))).
  { clear Hbad. induction spans as [|ext rest IH]; intros st Hbad Hall; simpl; [done|].
    apply IH; [intros e He; apply Hbad; by right|].
    apply step_records_values; try done; cbv beta.
    - intros r Hr _. unfold Vision.has_financial_data in *. by rewrite !lookup_insert_ne.
    - intros r Hr Hcls.
      destruct (decide (extraction_class ext ∈ ["investment_cost"; "fair_value"; "ownership"]))
        as [Hfin|Hfin].
      + destruct (Hbad ext) as [e He]; [by left|done|].
        unfold field_value, float_value. rewrite He.
        assert (Hnum : extraction_class ext ∈ numeric_investment_fields).
        { unfold numeric_investment_fields. set_solver. }
        rewrite decide_True by done.
        unfold Vision.has_financial_data in *.
        rewrite !lookup_insert. repeat case_decide; simpl; try done;
          destruct (r !! "investment_cost") as [[]|], (r !! "fair_value") as [[]|],
            (r !! "ownership") as [[]|]; simpl in *; done.
      + unfold Vision.has_financial_data in *.
        rewrite !lookup_insert_ne; [done|intros E; rewrite E in Hfin; set_solver..]. }
  apply Hgen; [done|]. intros k r. simpl. by rewrite lookup_empty.
Qed.

(** X5, witness: an investment whose only financial span is the cost "N/A". *)
Lemma unparsed_financials_retain_nothing_witness :
  investments (mkData ∅ [] ∅ [] []) = [].
Proof.
  apply (unparsed_financials_retain_nothing
           [span "investment_name" "A"; span "investment_type" "Equity";
            span "industry" "Software"; span "investment_cost" "N/A"]).
  - vm_compute. reflexivity.
  - intros ext Hext Hcls. exists ValueError.
    repeat (apply elem_of_cons in Hext as [->|Hext]);
      [vm_compute in Hcls; exfalso .. | vm_compute; reflexivity | by apply elem_of_nil in Hext].
    all: repeat (apply elem_of_cons in Hcls as [Hcls|Hcls]; [discriminate Hcls|]);
      by apply elem_of_nil in Hcls.
Defined.

(** ** Order and identity of the groups *)

Lemma od_wf_setitem {V : Type} (k : string) (v : V) (d : odict V) :
  od_wf d → od_wf (od_setitem k v d).
Proof.
  intros [Hnd Hdom]. unfold od_wf, od_setitem, od_contains. simpl.
  destruct (od_map d !! k) eqn:E.
  - split; [done|]. intros k'. rewrite Hdom.
    destruct (decide (k = k')) as [->|Hne].
    + rewrite lookup_insert_eq, E. split; eauto.
    + by rewrite lookup_insert_ne.
  - split.
    + apply NoDup_app. split; [done|]. split; [|apply NoDup_singleton].
      intros k' Hk' ->%list_elem_of_singleton.
      apply Hdom in Hk'. rewrite E in Hk'. by destruct Hk'.
    + intros k'. rewrite elem_of_app, list_elem_of_singleton, Hdom.
      destruct (decide (k = k')) as [->|Hne].
      * rewrite lookup_insert_eq. split; eauto.
      * rewrite lookup_insert_ne by done. split; [intros [?|?]; [done|congruence]|eauto].
Qed.

Lemma od_keys_setitem_prefix {V : Type} (k : string) (v : V) (d : odict V) :
  od_keys d `prefix_of` od_keys (od_setitem k v d).
Proof.
  unfold od_setitem. simpl. destruct (od_contains k d).
  - done.
  - by apply prefix_app_r.
Qed.

Lemma od_wf_ensure (k : string) (r : gmap string pyval) (g : odict (gmap string pyval)) :
  od_wf g → od_wf (ensure_record k r g).
Proof.
  unfold ensure_record. destruct (od_contains k g); [done|]. apply od_wf_setitem.
Qed.

Lemma od_keys_ensure_prefix (k : string) (r : gmap string pyval)
    (g : odict (gmap string pyval)) :
  od_keys g `prefix_of` od_keys (ensure_record k r g).
Proof.
  unfold ensure_record. destruct (od_contains k g); [done|]. apply od_keys_setitem_prefix.
Qed.

Lemma step_groups_wf (st : state) (ext : Extraction) :
  od_wf (investment_groups st) →
  od_wf (investment_groups (step_closed st ext))
  ∧ od_keys (investment_groups st) `prefix_of` od_keys (investment_groups (step_closed st ext)).
Proof.
  intros Hwf.
  assert (Hupd : ∀ k r f v,
            od_wf (updated_groups k r f v (investment_groups st))
            ∧ od_keys (investment_groups st)
                `prefix_of` od_keys (updated_groups k r f v (investment_groups st))).
  { intros k r f v. unfold updated_groups. split.
    - by apply od_wf_setitem, od_wf_ensure.
    - etrans; [apply (od_keys_ensure_prefix k r)|apply od_keys_setitem_prefix]. }
  unfold step_closed, dispatch_closed, with_anchor.
  repeat case_decide; repeat case_match; simpl; try done;
    first [ apply Hupd | split; [by apply od_wf_ensure | apply od_keys_ensure_prefix] ].
Qed.

Lemma run_groups_wf (spans : list Extraction) (st : state) :
  od_wf (investment_groups st) →
  od_wf (investment_groups (run_closed st spans))
  ∧ od_keys (investment_groups st) `prefix_of` od_keys (investment_groups (run_closed st spans)).
Proof.
  revert st. induction spans as [|ext rest IH]; intros st Hwf; simpl; [done|].
  destruct (step_groups_wf st ext Hwf) as [Hwf' Hpre].
  destruct (IH _ Hwf') as [Hwf'' Hpre'].
  split; [done|]. by etrans.
Qed.

Lemma od_wf_empty {V : Type} : od_wf (@od_empty V).
Proof.
  split; [constructor|]. intros k. simpl. rewrite lookup_empty. split.
  - by intros ?%elem_of_nil.
  - by intros [? ?].
Qed.

(** X6.  The groups are kept in the order of their first insertion: reading
    more spans never removes or reorders a grouping key, only appends new
    ones; each key is listed once and every listed key has its record. *)
Theorem groups_keep_insertion_order
    (pre post : list Extraction) (st st' : state) :
  Vision.run initial_state pre = Ok st →
  Vision.run initial_state (pre ++ post) = Ok st' →
  od_keys (investment_groups st) `prefix_of` od_keys (investment_groups st')
  ∧ NoDup (od_keys (investment_groups st'))
  ∧ (∀ k, k ∈ od_keys (investment_groups st') ↔ is_Some (od_map (investment_groups st') !! k))
  ∧ length (od_values (investment_groups st')) = length (od_keys (investment_groups st')).
Proof.
  rewrite !run_closed_form, run_closed_app. intros [= <-] [= <-].
  destruct (run_groups_wf pre initial_state od_wf_empty) as [Hwf _].
  destruct (run_groups_wf post _ Hwf) as [[Hnd Hdom] Hpre].
  split; [done|]. split; [done|]. split; [done|].
  unfold od_values. revert Hdom.
  generalize (od_map (investment_groups (run_closed (run_closed initial_state pre) post))).
  generalize (od_keys (investment_groups (run_closed (run_closed initial_state pre) post))).
  intros l m Hdom.
  assert (H : ∀ k, k ∈ l → is_Some (m !! k)) by (intros k; apply Hdom).
  clear Hdom. induction l as [|k l IH]; simpl; [done|].
  destruct (H k) as [v Hv]; [by left|]. rewrite Hv. simpl. f_equal.
  apply IH. intros k' Hk'. apply H. by right.
Qed.

(** X6, witness: investment "A" of type "Equity", then investment "B". *)
Lemma groups_keep_insertion_order_witness :
  od_keys (investment_groups (run_closed initial_state spans_A_equity))
    `prefix_of`
    od_keys (investment_groups
               (run_closed initial_state (spans_A_equity ++ [span "investment_name" "B"]))).
Proof.
  refine (proj1 (groups_keep_insertion_order spans_A_equity [span "investment_name" "B"]
                   (run_closed initial_state spans_A_equity)
                   (run_closed initial_state (spans_A_equity ++ [span "investment_name" "B"]))
                   _ _)).
  - vm_compute. reflexivity.
  - vm_compute. reflexivity.
Defined.

(** ** Numeric parsing *)


Lemma digit_value_nonneg (c : ascii) : is_digit c = true → (0 ≤ digit_value c)%Z.
Proof.
  unfold is_digit, digit_value. intros [H _]%andb_prop.
  apply N.leb_le in H. lia.
Qed.

Lemma digits_value_nonneg (s : string) (acc : Z) :
  str_forall is_digit s = true → (0 ≤ acc)%Z → (0 ≤ digits_value acc s)%Z.
Proof.
  revert acc. induction s as [|c r IH]; intros acc Hs Hacc; simpl in *; [done|].
  apply andb_prop in Hs as [Hc Hr]. apply IH; [done|].
  pose proof (digit_value_nonneg c Hc). lia.
Qed.





Lemma is_digit_not_special (c : ascii) :
  is_digit c = true → Ascii.eqb c "." = false ∧ Ascii.eqb c "-" = false.
Proof.
  destruct c as [[] [] [] [] [] [] [] []]; vm_compute; intros H; try discriminate H; done.
Qed.




Lemma str_forall_filter (p q : ascii → bool) (s : string) :
  str_forall p s = true → str_forall p (str_filter q s) = true.
Proof.
  induction s as [|c r IH]; simpl; [done|].
  intros [Hc Hr]%andb_prop. destruct (q c); simpl; [rewrite Hc|]; auto.
Qed.

Lemma span_digits_spec (s : string) :
  str_forall is_digit (span_digits s).1 = true.
Proof.
  induction s as [|c r IH]; simpl; [done|].
  destruct (is_digit c) eqn:E; [|done].
  destruct (span_digits r) as [d rest]. simpl in *. by rewrite E, IH.
Qed.

Lemma str_forall_append (p : ascii → bool) (s t : string) :
  str_forall p s = true → str_forall p t = true → str_forall p (s +:+ t) = true.
Proof.
  intros Hs Ht. induction s as [|c r IH]; [done|].
  change (String c r +:+ t) with (String c (r +:+ t)). simpl in *.
  apply andb_prop in Hs as [Hc Hr]. by rewrite Hc, IH.
Qed.

Lemma decimal_value_nonneg (int_part frac_part : string) :
  str_forall is_digit int_part = true → str_forall is_digit frac_part = true →
  (0 <= decimal_value false int_part frac_part)%Q.
Proof.
  intros Hi Hf. unfold decimal_value. rewrite Qred_correct.
  unfold Qle. simpl. rewrite Z.mul_1_r.
  apply digits_value_nonneg; [by apply str_forall_append|done].
Qed.

(** X9.  A text without minus sign never parses to a negative number: the
    sign is read from the character [-] alone, so a negative amount written
    in another way (in parentheses, say) is stored as positive. *)
Theorem float_negative_needs_minus (txt : string) (q : Q) :
  str_forall (λ c, negb (Ascii.eqb c "-")) txt = true →
  py_float (re_sub_non_numeric txt) = Ok q →
  (0 <= q)%Q.
Proof.
  intros Hplain. unfold re_sub_non_numeric.
  apply (str_forall_filter _ is_numeric_char) in Hplain.
  revert Hplain. generalize (str_filter is_numeric_char txt). intros s Hs.
  unfold py_float.
  assert (Hbody : match s with
                  | String "-" r => (true, r)
                  | _ => (false, s)
                  end = (false, s)).
  { destruct s as [|c r]; [done|]. simpl in Hs. apply andb_prop in Hs as [Hc _].
    destruct c as [[] [] [] [] [] [] [] []]; try done. }
  rewrite Hbody.
  pose proof (span_digits_spec s) as Hint.
  destruct (span_digits s) as [int_part rest]. simpl in Hint.
  destruct rest as [|c frac_part].
  - case_decide; [done|]. intros [= <-]. by apply decimal_value_nonneg.
  - destruct c as [[] [] [] [] [] [] [] []]; try done.
    destruct (str_forall is_digit frac_part) eqn:Hfrac; simpl; [|done].
    case_decide; [done|]. intros [= <-]. by apply decimal_value_nonneg.
Qed.

(** X9, witness: an amount in parentheses. *)
Lemma float_negative_needs_minus_witness : (0 <= 500 # 1)%Q.
Proof.
  apply (float_negative_needs_minus "(500)" (500 # 1)).
  - vm_compute. reflexivity.
  - vm_compute. reflexivity.
Defined.

(** ** The returned model *)

Lemma opt_str_fund (cls : string) (spans : list Extraction) :
  cls ∈ fund_classes → cls ≠ "vintage_year" →
  Schema.opt_str (data_fund (run_closed initial_state spans) !! cls)
    = Ok (text_of_last cls spans).
Proof.
  intros Hcls Hne. rewrite run_fund by done. unfold text_of_last.
  destruct (last_of_class cls spans); simpl.
  - unfold fund_value. by rewrite decide_False.
  - by rewrite lookup_empty.
Qed.

Lemma opt_int_fund (spans : list Extraction) :
  Schema.opt_int (data_fund (run_closed initial_state spans) !! "vintage_year")
    = Ok (year_of_last spans).
Proof.
  rewrite run_fund by (apply (bool_decide_unpack _); by vm_compute).
  unfold year_of_last.
  destruct (last_of_class "vintage_year" spans); simpl.
  - unfold fund_value. rewrite decide_True by done. unfold vintage_value.
    by destruct (py_int _).
  - by rewrite lookup_empty.
Qed.

Lemma opt_str_fees (cls : string) (spans : list Extraction) :
  cls ∈ fee_classes →
  Schema.opt_str (data_fees (run_closed initial_state spans) !! cls)
    = Ok (text_of_last cls spans).
Proof.
  intros Hcls. rewrite run_fees by done. unfold text_of_last.
  destruct (last_of_class cls spans); simpl; [done|]. by rewrite lookup_empty.
Qed.

Lemma KeyContacts_init_contact (ext : Extraction) :
  Schema.KeyContacts_init (contact_of ext) = Ok (contact_model ext).
Proof.
  unfold Schema.KeyContacts_init, contact_of, contact_model, attrs_get.
  rewrite !lookup_insert, !lookup_singleton.
  repeat (case_decide; try done).
  by destruct (attrs_of ext !! "title"), (attrs_of ext !! "email"),
    (attrs_of ext !! "phone").
Qed.

Lemma contacts_init_contacts (l : list Extraction) :
  Schema.contacts_init (contact_of <$> l) = Ok (contact_model <$> l).
Proof.
  induction l as [|ext l IH]; [done|].
  rewrite !fmap_cons.
  change (Schema.contacts_init (contact_of ext :: (contact_of <$> l)))
    with (c ← Schema.KeyContacts_init (contact_of ext);
          cs ← Schema.contacts_init (contact_of <$> l);
          Ok (c :: cs)).
  by rewrite KeyContacts_init_contact, IH.
Qed.

Ltac class_member := apply (bool_decide_unpack _); by vm_compute.

(** X10.  The model returned for a span sequence, in closed form: each fund
    and fee field the schema declares holds the text of the last span of its
    class (for [vintage_year] the parsed year), the contacts are those of the
    [contact] spans, the anchors those of all spans, and [investment] is the
    all-null default.  The [fund_reporting_period] spans and all investment
    spans leave no trace in the model. *)
Theorem model_returned_in_closed_form (spans : list Extraction) :
  Vision.normalize_to_schema spans = Ok (model_of spans).
Proof.
  unfold Vision.normalize_to_schema. rewrite normalize_data_closed_form. simpl.
  unfold Schema.FundDocExtraction_init, data_kwargs.
  repeat (rewrite lookup_insert; case_decide; try done).
  rewrite ?lookup_singleton.
  repeat (case_decide; try done).
  cbn [fund fees contacts source_anchors investments].
  unfold Schema.FundEntity_init, Schema.FeeTerms_init.
  rewrite !opt_str_fund, opt_int_fund by (class_member || done).
  rewrite !opt_str_fees by class_member.
  rewrite run_contacts, run_anchors. simpl.
  unfold contacts_of. rewrite contacts_init_contacts. done.
Qed.

(** * Properties of the docling variant *)

Lemma docling_dispatch_closed_form (st : state) (cls txt : string) (attrs : gmap string string) :
  cls ∉ vision_only_classes →
  Docling.dispatch st cls txt attrs = Ok (dispatch_closed st cls txt attrs).
Proof.
  intros Hv. unfold Docling.dispatch.
  repeat (case_decide; [subst|]);
    rewrite ?attach_text_eq, ?attach_float_eq, ?set_vintage_year_eq,
      ?on_investment_type_eq;
    unfold on_investment_name, on_contact;
    f_equal; unfold dispatch_closed, fund_value, field_value; class_cases.
Qed.

Lemma docling_dispatch_vision_only (st : state) (cls txt : string) (attrs : gmap string string) :
  cls ∈ vision_only_classes →
  Docling.dispatch st cls txt attrs = Ok st.
Proof.
  unfold vision_only_classes. intros Hv.
  repeat (apply elem_of_cons in Hv as [->|Hv]); [..|by apply elem_of_nil in Hv];
    unfold Docling.dispatch; repeat (case_decide; [done|]); done.
Qed.

Lemma docling_step_closed_form (st : state) (ext : Extraction) :
  Docling.step st ext = Ok (step_closed st (docling_view ext)).
Proof.
  unfold Docling.step, docling_view. case_decide as Hv.
  - rewrite docling_dispatch_vision_only by done. simpl.
    rewrite collect_anchor_eq. reflexivity.
  - rewrite docling_dispatch_closed_form by done. simpl.
    by rewrite collect_anchor_eq.
Qed.

Lemma docling_run_closed_form (spans : list Extraction) (st : state) :
  Docling.run st spans = Ok (run_closed st (docling_view <$> spans)).
Proof.
  revert st. induction spans as [|ext rest IH]; intros st; [done|].
  unfold Docling.run in *. simpl. rewrite docling_step_closed_form. simpl. apply IH.
Qed.

Lemma docling_view_id (l : list Extraction) :
  Forall (λ ext, extraction_class ext ∉ vision_only_classes) l → docling_view <$> l = l.
Proof.
  induction 1 as [|ext l Hext _ IH]; [done|].
  rewrite fmap_cons, IH. unfold docling_view. by rewrite decide_False.
Qed.

Lemma industry_fix_Some (ext x : Extraction) :
  Docling.industry_fix ext = Some x →
  extraction_class ext = "investment_name"
  ∧ extraction_class x = "industry"
  ∧ attributes x = Some ∅
  ∧ extraction_text x ∈ (snd <$> Docling.company_industry_mapping).
Proof.
  unfold Docling.industry_fix.
  assert (Hexact : ∀ txt m i, Docling.exact_match txt m = Some i → i ∈ (snd <$> m)).
  { intros txt m i. induction m as [|[c ind] m IH]; simpl; [done|].
    case_decide; [intros [= <-]; by left|intros Hm; right; by apply IH]. }
  assert (Hpartial : ∀ txt m i, Docling.partial_match txt m = Some i → i ∈ (snd <$> m)).
  { intros txt m i. induction m as [|[c ind] m IH]; simpl; [done|].
    destruct (_ || _); [intros [= <-]; by left|intros Hm; right; by apply IH]. }
  case_decide as Hcls; [|done]. case_decide; [done|].
  destruct (Docling.exact_match _ _) as [i|] eqn:E;
    [|destruct (Docling.partial_match _ _) as [j|] eqn:E']; cbn [truthy];
    try done; case_decide; try done; intros [= <-];
    (split; [done|]; split; [done|]; split; [done|]);
    first [exact (Hexact _ _ _ E) | exact (Hpartial _ _ _ E')].
Qed.

Lemma industry_fixes_spec (spans : list Extraction) :
  Forall (λ x, extraction_class x = "industry" ∧ attributes x = Some ∅
               ∧ extraction_text x ∈ (snd <$> Docling.company_industry_mapping))
    (omap Docling.industry_fix spans).
Proof.
  apply Forall_forall. intros x (ext & _ & Hx)%list_elem_of_omap.
  apply industry_fix_Some in Hx. naive_solver.
Qed.

(** X11.  The fix-up of the docling variant only appends to the sequence:
    the given spans stay as they are and in place, each appended span has the
    class [industry], no attributes and a text taken from the values of
    [company_industry_mapping], and at most one span is appended per
    [investment_name] span. *)
Theorem fix_known_extraction_issues_appends (spans : list Extraction) :
  ∃ extra,
    Docling.fix_known_extraction_issues spans = (spans ++ extra)%list
    ∧ Forall (λ x, extraction_class x = "industry" ∧ attributes x = Some ∅
                   ∧ extraction_text x ∈ (snd <$> Docling.company_industry_mapping))
        extra
    ∧ (length extra
       ≤ length (filter (λ ext, extraction_class ext = "investment_name") spans))%nat.
Proof.
  exists (omap Docling.industry_fix spans). split; [done|].
  split; [apply industry_fixes_spec|].
  induction spans as [|ext rest IH]; simpl; [done|].
  rewrite filter_cons.
  destruct (Docling.industry_fix ext) as [x|] eqn:E; simpl.
  - apply industry_fix_Some in E as [Hcls _]. rewrite decide_True by done. simpl.
    apply le_n_S. exact IH.
  - case_decide; simpl; first [exact IH | apply le_S; exact IH].
Qed.

(** X12.  On spans of the classes both chains handle, the two pipelines
    differ by the final loop alone: the vision pipeline applied to the
    fixed-up sequence returns the fund, fees, contacts and anchors of the
    docling variant, and as investments the docling records that have
    financial data, with the currency "USD". *)
Theorem docling_then_filter_is_vision (spans : list Extraction) (d : Data) :
  (∀ ext, ext ∈ spans → extraction_class ext ∉ vision_only_classes) →
  Docling.normalize_data spans = Ok d →
  Vision.normalize_data (Docling.fix_known_extraction_issues spans) =
    Ok (mkData (fund d) (Vision.keep_investments (investments d))
          (fees d) (contacts d) (source_anchors d)).
Proof.
  intros Hcls. unfold Docling.normalize_data.
  rewrite docling_run_closed_form, normalize_data_closed_form.
  rewrite docling_view_id.
  - simpl. by intros [= <-].
  - unfold Docling.fix_known_extraction_issues. apply Forall_app. split.
    + by apply Forall_forall.
    + eapply Forall_impl; [apply industry_fixes_spec|].
      intros x (Hx & _ & _). rewrite Hx. intros H.
      apply (bool_decide_pack _) in H. vm_compute in H. by destruct H.
Qed.

(** X12, witness: the four spans of investment "A". *)
Lemma docling_then_filter_is_vision_witness :
  Vision.normalize_data (Docling.fix_known_extraction_issues spans_A_equity) =
    Ok (mkData ∅
          (Vision.keep_investments
             [ {[ "investment_name" := PStr "A" ]};
               {[ "investment_name" := PStr "A"; "investment_type" := PStr "Equity";
                  "investment_cost" := PFloat (1000000 # 1);
                  "fair_value" := PFloat (1200000 # 1) ]} ])
          ∅ [] []).
Proof.
  apply (docling_then_filter_is_vision spans_A_equity
           (mkData ∅
              [ {[ "investment_name" := PStr "A" ]};
                {[ "investment_name" := PStr "A"; "investment_type" := PStr "Equity";
                   "investment_cost" := PFloat (1000000 # 1);
                   "fair_value" := PFloat (1200000 # 1) ]} ]
              ∅ [] [])).
  - intros ext Hext.
    repeat (apply elem_of_cons in Hext as [->|Hext]); [..|by apply elem_of_nil in Hext];
      intros H; apply (bool_decide_pack _) in H; vm_compute in H; by destruct H.
  - vm_compute. reflexivity.
Defined.

Lemma run_cursor (spans : list Extraction) (st : state) :
  cursor (run_closed st spans) = cursor_after (cursor st) spans.
Proof.
  revert st. induction spans as [|ext rest IH]; intros st; simpl; [done|].
  unfold run_closed, cursor_after in *. by rewrite IH, step_cursor.
Qed.

Lemma cursor_step_view (c : option string * option string) (ext : Extraction) :
  cursor_step c (docling_view ext) = cursor_step c ext.
Proof.
  unfold docling_view. case_decide as Hv; [|done].
  unfold cursor_step. simpl.
  repeat (case_decide; try done);
    exfalso; match goal with
             | H : extraction_class ext = _ |- _ => rewrite H in Hv
             end;
    apply (bool_decide_pack _) in Hv; vm_compute in Hv; by destruct Hv.
Qed.

Lemma cursor_after_view (spans : list Extraction) (c : option string * option string) :
  cursor_after c (docling_view <$> spans) = cursor_after c spans.
Proof.
  revert c. induction spans as [|ext rest IH]; intros c; simpl; [done|].
  unfold cursor_after in *. simpl. by rewrite cursor_step_view, IH.
Qed.

Lemma last_attached_same_class (cls k : string) (c : option string * option string)
    (l : list Extraction) :
  cls ≠ "investment_name" → cls ≠ "investment_type" →
  Forall (λ x, extraction_class x = cls) l →
  attached_key c = Some k →
  last_attached cls k c l = extraction_text <$> last l.
Proof.
  intros Hn Ht Hl Hk. induction Hl as [|x l Hx Hl IH]; [done|].
  simpl. unfold cursor_step. rewrite Hx.
  rewrite !decide_False by done. rewrite IH.
  destruct l as [|y l']; simpl.
  - by rewrite decide_True.
  - by destruct (last (y :: l')) eqn:E; [|by apply last_None in E].
Qed.

Lemma od_values_elem (g : odict (gmap string pyval)) (k : string) (r : gmap string pyval) :
  od_wf g → od_map g !! k = Some r → r ∈ od_values g.
Proof.
  intros [_ Hdom] Hk. unfold od_values. apply list_elem_of_omap.
  exists k. split; [|done]. apply Hdom. eauto.
Qed.

(** X13.  The industry spans appended by the fix-up are read after all the
    given spans, so they are attached to the investment that is current at
    the end of the sequence, whichever investment name produced them: when
    the sequence ends with a known current name and type, the record of that
    pair is in the docling result and its industry is the text of the last
    appended span. *)
Theorem docling_industry_fix_goes_to_last_investment
    (spans : list Extraction) (k : string) (x : Extraction) :
  attached_key (cursor_after (None, None) spans) = Some k →
  last (omap Docling.industry_fix spans) = Some x →
  ∃ st d inv,
    Docling.run initial_state (Docling.fix_known_extraction_issues spans) = Ok st
    ∧ Docling.normalize_data spans = Ok d
    ∧ od_map (investment_groups st) !! k = Some inv
    ∧ inv ∈ investments d
    ∧ inv !! "industry" = Some (PStr (extraction_text x)).
Proof.
  intros Hk Hlast. unfold Docling.normalize_data.
  rewrite docling_run_closed_form. simpl.
  set (st := run_closed initial_state
               (docling_view <$> Docling.fix_known_extraction_issues spans)).
  assert (Hfield : field_of (investment_groups st) k "industry"
                   = Some (PStr (extraction_text x))).
  { unfold st, Docling.fix_known_extraction_issues.
    rewrite fmap_app, run_closed_app.
    rewrite (docling_view_id (omap _ _)).
    2:{ eapply Forall_impl; [apply industry_fixes_spec|].
        intros y (Hy & _ & _). rewrite Hy. intros H.
        apply (bool_decide_pack _) in H. vm_compute in H. by destruct H. }
    rewrite run_field by class_member.
    rewrite run_cursor, cursor_after_view.
    change (cursor initial_state) with (@None string, @None string).
    rewrite (last_attached_same_class "industry" k); try done.
    - rewrite Hlast. simpl. unfold field_value.
      by rewrite decide_False by (intros H; class_absurd).
    - eapply Forall_impl; [apply industry_fixes_spec|]. naive_solver. }
  unfold field_of in Hfield.
  destruct (od_map (investment_groups st) !! k) as [r|] eqn:Er; [|done].
  exists st, (mkData (data_fund st) (od_values (investment_groups st)) (data_fees st)
            (data_contacts st) (data_source_anchors st)), r.
  split; [done|]. split; [done|]. split; [done|]. split; [|done].
  apply (od_values_elem _ k); [|done].
  apply run_groups_wf, od_wf_empty.
Qed.

(** X13, witness: a known company first, then investment "B" of type
    "Debt": the industry of the known company is attached to "B". *)
Lemma docling_industry_fix_goes_to_last_investment_witness :
  ∃ st d inv,
    Docling.run initial_state
      (Docling.fix_known_extraction_issues
         [span "investment_name" "Global Packaging"; span "investment_type" "Equity";
          span "investment_cost" "1"; span "investment_name" "B";
          span "investment_type" "Debt"; span "investment_cost" "2"]) = Ok st
    ∧ Docling.normalize_data
        [span "investment_name" "Global Packaging"; span "investment_type" "Equity";
         span "investment_cost" "1"; span "investment_name" "B";
         span "investment_type" "Debt"; span "investment_cost" "2"] = Ok d
    ∧ od_map (investment_groups st) !! "B_Debt" = Some inv
    ∧ inv ∈ investments d
    ∧ inv !! "industry" = Some (PStr "Containers & Packaging").
Proof.
  apply (docling_industry_fix_goes_to_last_investment
           [span "investment_name" "Global Packaging"; span "investment_type" "Equity";
            span "investment_cost" "1"; span "investment_name" "B";
            span "investment_type" "Debt"; span "investment_cost" "2"]
           "B_Debt"
           (mkExtraction "industry" "Containers & Packaging" (Some ∅))).
  - vm_compute. reflexivity.
  - vm_compute. reflexivity.
Defined.

(** * Properties of [normalize_text] *)

Lemma append_cons (c : ascii) (r t : string) : String c r +:+ t = String c (r +:+ t).
Proof. reflexivity. Qed.

Lemma append_nil (t : string) : "" +:+ t = t.
Proof. reflexivity. Qed.

Lemma has_blank_before_newline_cons (a : ascii) (t : string) :
  has_blank_before_newline (String a t) ↔
    (is_blank a = true ∧ starts_with_newline t = true) ∨ has_blank_before_newline t.
Proof.
  split.
  - intros (p & c & q & Hc & Hs). destruct p as [|a' p].
    + rewrite append_nil in Hs. injection Hs as -> ->. left. split; [done|].
      simpl. by rewrite ?Ascii.eqb_refl.
    + rewrite append_cons in Hs. injection Hs as -> ->. right. by exists p, c, q.
  - intros [[Ha Ht]|(p & c & q & Hc & ->)].
    + destruct t as [|n q]; [done|]. simpl in Ht. apply Ascii.eqb_eq in Ht as ->.
      by exists "", a, q.
    + by exists (String a p), c, q.
Qed.

Lemma has_three_newlines_cons (a : ascii) (t : string) :
  has_three_newlines (String a t) ↔
    (3 ≤ leading_newlines (String a t))%nat ∨ has_three_newlines t.
Proof.
  split.
  - intros (p & q & Hs). destruct p as [|a' p].
    + rewrite append_nil in Hs. injection Hs as -> ->. left. simpl.
      rewrite ?Ascii.eqb_refl. lia.
    + rewrite append_cons in Hs. injection Hs as -> ->. right. by exists p, q.
  - intros [Hl|(p & q & ->)].
    + simpl in Hl. destruct (Ascii.eqb a newline) eqn:Ea; [|lia].
      apply Ascii.eqb_eq in Ea as ->.
      destruct t as [|b t]; simpl in Hl; [lia|].
      destruct (Ascii.eqb b newline) eqn:Eb; [|lia]. apply Ascii.eqb_eq in Eb as ->.
      destruct t as [|c t]; simpl in Hl; [lia|].
      destruct (Ascii.eqb c newline) eqn:Ec; [|lia]. apply Ascii.eqb_eq in Ec as ->.
      by exists "", t.
    + by exists (String a p), q.
Qed.

Lemma collapse_leading (s : string) (seen : nat) :
  (seen ≤ 2)%nat → (leading_newlines (collapse_newlines seen s) + seen ≤ 2)%nat.
Proof.
  revert seen. induction s as [|c r IH]; intros seen Hseen; simpl; [lia|].
  destruct (Ascii.eqb c newline) eqn:Ec.
  - destruct (Nat.ltb_spec seen 2).
    + simpl. rewrite Ec. specialize (IH (S seen)). lia.
    + apply IH. lia.
  - simpl. rewrite Ec. lia.
Qed.

Lemma collapse_no_three_newlines (s : string) (seen : nat) :
  (seen ≤ 2)%nat → ¬ has_three_newlines (collapse_newlines seen s).
Proof.
  revert seen. induction s as [|c r IH]; intros seen Hseen; simpl.
  - intros (p & q & Hs). by destruct p.
  - destruct (Ascii.eqb c newline) eqn:Ec.
    + destruct (Nat.ltb_spec seen 2).
      * rewrite has_three_newlines_cons. intros [Hl|H3].
        -- simpl in Hl. rewrite Ec in Hl.
           pose proof (collapse_leading r (S seen)). lia.
        -- by apply (IH (S seen)); [lia|].
      * by apply IH.
    + rewrite has_three_newlines_cons. intros [Hl|H3].
      * simpl in Hl. rewrite Ec in Hl. lia.
      * by apply (IH 0%nat); [lia|].
Qed.

(** X14.  The text returned by [normalize_text] never has three newlines in
    a row: blank lines are at most single. *)
Theorem normalize_text_no_three_newlines (text : string) :
  ¬ has_three_newlines (normalize_text text).
Proof. unfold normalize_text. apply collapse_no_three_newlines. lia. Qed.

Lemma strip_blanks_head (s : string) :
  starts_with_newline (strip_blanks s) = true → blanks_then_newline s = true.
Proof.
  induction s as [|c r IH]; simpl; [done|].
  destruct (Ascii.eqb c newline) eqn:Ec; [done|].
  destruct (is_blank c) eqn:Eb; simpl.
  - destruct (blanks_then_newline r) eqn:Er; [done|]. simpl. by rewrite Ec.
  - by rewrite Ec.
Qed.

Lemma strip_blanks_clean (s : string) : ¬ has_blank_before_newline (strip_blanks s).
Proof.
  induction s as [|c r IH]; simpl.
  - intros (p & c & q & _ & Hs). by destruct p.
  - destruct (is_blank c && blanks_then_newline r) eqn:E; [done|].
    rewrite has_blank_before_newline_cons. intros [[Hc Hh]|Hbad]; [|done].
    apply strip_blanks_head in Hh. by rewrite Hc, Hh in E.
Qed.

Lemma collapse_head (s : string) :
  starts_with_newline (collapse_newlines 0 s) = starts_with_newline s.
Proof.
  destruct s as [|c r]; simpl; [done|].
  destruct (Ascii.eqb c newline) eqn:Ec; simpl; by rewrite Ec.
Qed.

Lemma is_blank_not_newline (c : ascii) : is_blank c = true → Ascii.eqb c newline = false.
Proof.
  unfold is_blank. intros [H|H]%orb_prop; apply Ascii.eqb_eq in H; by subst.
Qed.

Lemma collapse_keeps_clean (s : string) (seen : nat) :
  has_blank_before_newline (collapse_newlines seen s) → has_blank_before_newline s.
Proof.
  revert seen. induction s as [|c r IH]; intros seen; simpl; [done|].
  rewrite (has_blank_before_newline_cons c r).
  destruct (Ascii.eqb c newline) eqn:Ec.
  - destruct (seen <? 2)%nat.
    + rewrite has_blank_before_newline_cons. intros [[Hc _]|Hbad].
      * apply is_blank_not_newline in Hc. congruence.
      * right. by apply (IH (S seen)).
    + intros Hbad. right. by apply (IH seen).
  - rewrite has_blank_before_newline_cons. intros [[Hc Hh]|Hbad].
    + left. split; [done|]. by rewrite collapse_head in Hh.
    + right. by apply (IH 0%nat).
Qed.

(** X15.  The text returned by [normalize_text] never has a blank or a tab
    directly before a newline: no line ends with trailing blanks. *)
Theorem normalize_text_no_trailing_blanks (text : string) :
  ¬ has_blank_before_newline (normalize_text text).
Proof.
  unfold normalize_text. intros H%collapse_keeps_clean. by apply strip_blanks_clean in H.
Qed.

Lemma dehyphenate_cons (a : ascii) (t : string) :
  dehyphenate (String a t) =
    match t with
    | String h (String n (String b r)) =>
        if (is_word a && Ascii.eqb h "-" && Ascii.eqb n newline && is_word b)%bool
        then String a (String b (dehyphenate r))
        else String a (dehyphenate t)
    | _ => String a (dehyphenate t)
    end.
Proof. reflexivity. Qed.

Lemma dehyphenate_length (n : nat) (s : string) :
  (String.length s ≤ n)%nat →
  (String.length (dehyphenate s) ≤ String.length s)%nat.
Proof.
  revert s. induction n as [|n IH]; intros s Hn.
  - destruct s; [done|]. cbn [String.length] in Hn. lia.
  - destruct s as [|a t]; [done|]. rewrite dehyphenate_cons.
    cbn [String.length] in Hn.
    assert (Ht : (String.length (dehyphenate t) ≤ String.length t)%nat)
      by (apply IH; lia).
    destruct t as [|h [|m [|b r]]]; cbn [String.length] in *; try lia.
    destruct (_ && _); cbn [String.length]; [|lia].
    assert (Hr : (String.length (dehyphenate r) ≤ String.length r)%nat)
      by (apply IH; lia).
    lia.
Qed.

Lemma strip_blanks_length (s : string) :
  (String.length (strip_blanks s) ≤ String.length s)%nat.
Proof.
  induction s as [|c r IH]; simpl; [done|].
  destruct (_ && _); simpl; lia.
Qed.

Lemma collapse_newlines_length (s : string) (seen : nat) :
  (String.length (collapse_newlines seen s) ≤ String.length s)%nat.
Proof.
  revert seen. induction s as [|c r IH]; intros seen; simpl; [done|].
  destruct (Ascii.eqb c newline); [destruct (seen <? 2)%nat|]; simpl;
    first [specialize (IH (S seen)); lia | specialize (IH seen); lia
          | specialize (IH 0%nat); lia].
Qed.

(** X16.  [normalize_text] only removes characters: the text it returns is
    never longer than the text it is given. *)
Theorem normalize_text_never_longer (text : string) :
  (String.length (normalize_text text) ≤ String.length text)%nat.
Proof.
  unfold normalize_text.
  pose proof (dehyphenate_length (String.length text) text (le_n _)).
  pose proof (strip_blanks_length (dehyphenate text)).
  pose proof (collapse_newlines_length (strip_blanks (dehyphenate text)) 0).
  lia.
Qed.

Lemma dehyphenate_one_line (s : string) :
  str_forall (λ c, negb (Ascii.eqb c newline)) s = true → dehyphenate s = s.
Proof.
  induction s as [|a t IH]; [done|].
  intros Hs. simpl in Hs. apply andb_prop in Hs as [_ Ht].
  rewrite dehyphenate_cons, (IH Ht).
  destruct t as [|h [|m [|b r]]]; try done.
  simpl in Ht. apply andb_prop in Ht as [_ Ht]. apply andb_prop in Ht as [Hm _].
  apply negb_true_iff in Hm. rewrite Hm.
  by rewrite andb_false_r.
Qed.

Lemma blanks_then_newline_one_line (s : string) :
  str_forall (λ c, negb (Ascii.eqb c newline)) s = true → blanks_then_newline s = false.
Proof.
  induction s as [|c r IH]; simpl; [done|].
  intros [Hc Hr]%andb_prop. apply negb_true_iff in Hc. rewrite Hc.
  destruct (is_blank c); auto.
Qed.

Lemma strip_blanks_one_line (s : string) :
  str_forall (λ c, negb (Ascii.eqb c newline)) s = true → strip_blanks s = s.
Proof.
  induction s as [|c r IH]; simpl; [done|].
  intros [Hc Hr]%andb_prop.
  by rewrite (blanks_then_newline_one_line r Hr), andb_false_r, (IH Hr).
Qed.

Lemma collapse_newlines_one_line (s : string) (seen : nat) :
  str_forall (λ c, negb (Ascii.eqb c newline)) s = true → collapse_newlines seen s = s.
Proof.
  revert seen. induction s as [|c r IH]; intros seen; simpl; [done|].
  intros [Hc Hr]%andb_prop. apply negb_true_iff in Hc. by rewrite Hc, (IH 0%nat Hr).
Qed.

(** X17.  A text without newline is returned unchanged by [normalize_text],
    hyphens and blanks included. *)
Theorem normalize_text_one_line (text : string) :
  str_forall (λ c, negb (Ascii.eqb c newline)) text = true →
  normalize_text text = text.
Proof.
  intros H. unfold normalize_text.
  by rewrite (dehyphenate_one_line text H), (strip_blanks_one_line text H),
    (collapse_newlines_one_line text 0 H).
Qed.

(** X17, witness: a line with a hyphen and trailing blanks. *)
Lemma normalize_text_one_line_witness :
  normalize_text "co-invest  " = "co-invest  ".
Proof.
  apply (normalize_text_one_line "co-invest  "). vm_compute. reflexivity.
Defined.

(** * Properties of the single-investment normalizer of [pipeline.py] *)



















(** * Properties of [infer_doc_type] and of the page selection *)

Lemma lower_app (s t : string) : lower (s +:+ t) = lower s +:+ lower t.
Proof.
  induction s as [|c r IH]; [done|].
  rewrite append_cons. simpl. by rewrite IH.
Qed.

Lemma prefix_app (k q : string) : String.prefix k (k +:+ q) = true.
Proof.
  induction k as [|c r IH]; [by destruct q|].
  rewrite append_cons. simpl. by destruct (ascii_dec c c).
Qed.

Lemma str_in_unfold (k hay : string) :
  Docling.str_in k hay =
    if String.prefix k hay then true
    else match hay with
         | EmptyString => false
         | String _ r => Docling.str_in k r
         end.
Proof. by destruct hay. Qed.

Lemma str_in_app_r (k p t : string) :
  Docling.str_in k t = true → Docling.str_in k (p +:+ t) = true.
Proof.
  intros Ht. induction p as [|c r IH]; [done|].
  rewrite append_cons, str_in_unfold. by destruct (String.prefix _ _).
Qed.

Lemma str_in_here (k q : string) : Docling.str_in k (k +:+ q) = true.
Proof. by rewrite str_in_unfold, prefix_app. Qed.

(** X19.  A file name that contains "fund", "soi" or "financial" in any
    letter case is typed [fund_financials], whatever else it contains: these
    keywords take precedence over "investor" and "report". *)
Theorem infer_doc_type_fund_keywords_first (p k q : string) :
  lower k ∈ ["fund"; "soi"; "financial"] →
  infer_doc_type (p +:+ k +:+ q) = "fund_financials".
Proof.
  intros Hk. unfold infer_doc_type.
  rewrite !lower_app.
  assert (Hin : Docling.str_in (lower k) (lower p +:+ lower k +:+ lower q) = true)
    by (apply str_in_app_r, str_in_here).
  unfold any_keyword_in.
  assert (Hany : existsb (λ keyword, Docling.str_in keyword (lower p +:+ lower k +:+ lower q))
                   ["fund"; "soi"; "financial"] = true).
  { apply existsb_exists. exists (lower k). split; [|done].
    by apply list_elem_of_In. }
  by rewrite Hany.
Qed.

(** X19, witness: the report of a fund. *)
Lemma infer_doc_type_fund_keywords_first_witness :
  infer_doc_type ("PEAK Credit " +:+ "Fund" +:+ " I_2024Q1_Investor Report.pdf")
    = "fund_financials".
Proof.
  apply (infer_doc_type_fund_keywords_first
           "PEAK Credit " "Fund" " I_2024Q1_Investor Report.pdf").
  apply (bool_decide_unpack _). vm_compute. exact I.
Defined.

Lemma elem_of_pages_of_range (doc_len : Z) (r : Z * Z) (page : Z) (ty : string) :
  (page, ty) ∈ pages_of_range doc_len r ↔
    (r.1 ≤ page - 1 ≤ r.2)%Z ∧ (page - 1 < doc_len)%Z ∧ ty = page_type (page - 1).
Proof.
  unfold pages_of_range. rewrite list_elem_of_fmap. split.
  - intros (n & [= -> ->] & Hn). apply list_elem_of_filter in Hn as [Hlt Hn].
    apply elem_of_seqZ in Hn.
    replace (n + 1 - 1)%Z with n by lia. split; [lia|]. done.
  - intros (Hr & Hlt & ->). exists (page - 1)%Z. split.
    + f_equal. lia.
    + apply list_elem_of_filter. split; [done|]. apply elem_of_seqZ. lia.
Qed.

(** X20.  For ranges of non-negative page indexes, the pages handed to the
    vision model are exactly the pages of the requested ranges that exist in
    the document: an entry for page [p] is returned if and only if the index
    [p - 1] lies in some range and is below the length of the document,
    indexes at or beyond the length being skipped silently; the entry is
    typed [fund_info] for the first page and [investments] for any other,
    and every returned page number is between 1 and the length of the
    document. *)
Theorem extracted_pages_are_the_existing_requested_ones
    (doc_len : Z) (page_ranges : list (Z * Z)) (page : Z) (ty : string) :
  Forall (λ r, (0 ≤ r.1)%Z) page_ranges →
  ((page, ty) ∈ extract_pdf_pages doc_len (Some page_ranges) ↔
     ∃ r, r ∈ page_ranges ∧ (r.1 ≤ page - 1 ≤ r.2)%Z ∧ (page - 1 < doc_len)%Z
          ∧ ty = (if decide (page = 1%Z) then "fund_info" else "investments"))
  ∧ ((page, ty) ∈ extract_pdf_pages doc_len (Some page_ranges) →
     (1 ≤ page ≤ doc_len)%Z).
Proof.
  intros Hpos.
  assert (Hiff : (page, ty) ∈ extract_pdf_pages doc_len (Some page_ranges) ↔
     ∃ r, r ∈ page_ranges ∧ (r.1 ≤ page - 1 ≤ r.2)%Z ∧ (page - 1 < doc_len)%Z
          ∧ ty = (if decide (page = 1%Z) then "fund_info" else "investments")).
  { unfold extract_pdf_pages. rewrite list_elem_of_join. split.
    - intros (l & Hl & Hin). apply list_elem_of_fmap in Hin as (r & -> & Hr).
      apply elem_of_pages_of_range in Hl as (H1 & H2 & ->).
      exists r. split; [done|]. split; [done|]. split; [done|].
      unfold page_type. repeat case_decide; try done; lia.
    - intros (r & Hr & H1 & H2 & ->). exists (pages_of_range doc_len r). split.
      + apply elem_of_pages_of_range. split; [done|]. split; [done|].
        unfold page_type. repeat case_decide; try done; lia.
      + apply list_elem_of_fmap. by exists r. }
  split; [done|].
  intros (r & Hr & H1 & H2 & _)%Hiff.
  rewrite Forall_forall in Hpos. specialize (Hpos r Hr). simpl in Hpos. lia.
Qed.

(** X20, witness: the default ranges on a document of seven pages. *)
Lemma extracted_pages_are_the_existing_requested_ones_witness :
  (1 ≤ 7 ≤ 7)%Z.
Proof.
  refine (proj2 (extracted_pages_are_the_existing_requested_ones
                   7 [(0, 0); (6, 7)]%Z 7 "investments" _) _).
  - repeat constructor; vm_compute; discriminate.
  - apply (bool_decide_unpack _). vm_compute. exact I.
Defined.

(** * The grouping key *)

(** X21.  The grouping key [f"{name}_{type}"] identifies the pair as long as
    the names have no underscore: two pairs whose names are free of [_] and
    whose keys are equal have the same name and the same type.  (With an
    underscore in a name two different pairs can share a key, and then a
    record.) *)
Theorem unique_key_identifies_pair (n t n' t' : string) :
  str_forall (λ c, negb (Ascii.eqb c "_")) n = true →
  str_forall (λ c, negb (Ascii.eqb c "_")) n' = true →
  unique_key_of n t = unique_key_of n' t' →
  n = n' ∧ t = t'.
Proof.
  unfold unique_key_of. revert n'.
  induction n as [|c r IH]; intros [|c' r'] Hn Hn' Hkey.
  - change (String "_" t = String "_" t') in Hkey. by simplify_eq.
  - change (String "_" t = String c' (r' +:+ String "_" t')) in Hkey.
    injection Hkey as <- _. simpl in Hn'. done.
  - change (String c (r +:+ String "_" t) = String "_" t') in Hkey.
    injection Hkey as -> _. simpl in Hn. done.
  - change (String c (r +:+ "_" +:+ t) = String c' (r' +:+ "_" +:+ t')) in Hkey.
    injection Hkey as -> Hkey.
    simpl in Hn, Hn'. apply andb_prop in Hn as [_ Hn]. apply andb_prop in Hn' as [_ Hn'].
    by destruct (IH r' Hn Hn' Hkey) as [-> ->].
Qed.

(** X21, witness: investment "A" of type "Equity". *)
Lemma unique_key_identifies_pair_witness : "A" = "A" ∧ "Equity" = "Equity".
Proof.
  apply (unique_key_identifies_pair "A" "Equity" "A" "Equity"); reflexivity.
Defined.
